(** * modelwrangler: configuration, graph assembly and training orchestration

    A shallow embedding of the Python sources

      - [modelwrangler/tf_models.py]            (module [TfModels])
      - [modelwrangler/corral/dense_autoencoder.py] (module [DenseAutoencoderM])
      - [model_wrangler/model_wrangler.py]      (module [ModelWranglerM])

    Python values are a small inductive type, attribute dictionaries are
    finite maps, exceptions are an explicit [result] type, the file system
    is a finite map from path names to nodes, the tensor engine's graph is
    a term language whose constructors are the engine calls the sources
    make, and the training loop runs in a trace monad in which a pending
    user interrupt is an explicit budget of atomic actions. *)

From Stdlib Require Import ZArith QArith Lia Ascii String.
From stdpp Require Import base strings list gmap pretty.

#[local] Set Warnings "-register-all".
#[local] Open Scope string_scope.
#[local] Open Scope list_scope.

(** ** Python values, truthiness and exceptions *)

Module Py.

(** Plain Python data.  A [dict] is its insertion-ordered list of items
    (keys are strings: attribute names, keyword names, JSON members); a
    float carries a rational payload (finite values only). *)
Inductive pyval :=
| PNone
| PBool (b : bool)
| PInt (n : Z)
| PFloat (x : Q)
| PStr (s : string)
| PList (l : list pyval)
| PTuple (l : list pyval)
| PDict (d : list (string * pyval)).

Inductive exn :=
| AttributeError (attribute : string)
| TypeError
| AssertionError
| OSError
| ValueError
| IndexError
| KeyboardInterrupt.

Inductive result (A : Type) :=
| Ok (a : A)
| Raise (e : exn).
Arguments Ok {A} a.
Arguments Raise {A} e.

Definition bind {A B} (r : result A) (k : A -> result B) : result B :=
  match r with
  | Ok a => k a
  | Raise e => Raise e
  end.

(** [bool(v)]: [None], [False], zero, and empty strings and containers
    are falsy. *)
Definition truthy (v : pyval) : bool :=
  match v with
  | PNone => false
  | PBool b => b
  | PInt n => negb (n =? 0)%Z
  | PFloat x => negb (Qnum x =? 0)%Z
  | PStr s => negb (String.eqb s "")
  | PList l => negb (Nat.eqb (length l) 0)
  | PTuple l => negb (Nat.eqb (length l) 0)
  | PDict d => negb (Nat.eqb (length d) 0)
  end.

(** [d.get(key, default)] and [d[key]] on a dict given by its items. *)
Definition dict_lookup {A} (key : string) (d : list (string * A)) : option A :=
  (list_to_map d : gmap string A) !! key.

Definition dict_get {A} (d : list (string * A)) (key : string) (default : A) : A :=
  match dict_lookup key d with
  | Some v => v
  | None => default
  end.

(** [sep.join(parts)] *)
Fixpoint str_join (sep : string) (parts : list string) : string :=
  match parts with
  | [] => ""
  | [p] => p
  | p :: rest => p +:+ sep +:+ str_join sep rest
  end.

(** The characters of a string, each as a one-character string: what
    iterating over a [str] yields. *)
Fixpoint str_iter (s : string) : list string :=
  match s with
  | EmptyString => []
  | String c rest => String c EmptyString :: str_iter rest
  end.

(** [range(n)] for a non-negative count. *)
Definition range (n : Z) : list Z :=
  map Z.of_nat (seq 0 (Z.to_nat n)).

End Py.
Export Py.

Declare Scope py_scope.
Delimit Scope py_scope with py.
Notation "x <- c1 ;; c2" := (Py.bind c1 (fun x => c2))
  (at level 100, c1 at next level, right associativity) : py_scope.
#[local] Open Scope py_scope.

(** ** The [json] library: [json.dump] and [json.load]

    The library is used, not part of the program.  It is modelled on JSON
    documents rather than on their text: [json.dump] maps a Python value
    to the document it writes, [json.load] maps a document to the value it
    returns.  JSON has no tuple: [json.dump] writes a tuple as an array,
    and [json.load] returns every array as a list. *)

Module Json.

Inductive json :=
| JNull
| JBool (b : bool)
| JInt (n : Z)
| JFloat (x : Q)
| JStr (s : string)
| JArr (l : list json)
| JObj (d : list (string * json)).

Fixpoint dump (v : pyval) : json :=
  match v with
  | PNone => JNull
  | PBool b => JBool b
  | PInt n => JInt n
  | PFloat x => JFloat x
  | PStr s => JStr s
  | PList l => JArr (map dump l)
  | PTuple l => JArr (map dump l)
  | PDict d => JObj (map (fun kv => (kv.1, dump kv.2)) d)
  end.

Fixpoint load (j : json) : pyval :=
  match j with
  | JNull => PNone
  | JBool b => PBool b
  | JInt n => PInt n
  | JFloat x => PFloat x
  | JStr s => PStr s
  | JArr l => PList (map load l)
  | JObj d => PDict (map (fun kv => (kv.1, load kv.2)) d)
  end.

(** The value [json.load (json.dump v)] returns: [v] with every tuple
    replaced by the list of its elements. *)
Fixpoint tuples_as_lists (v : pyval) : pyval :=
  match v with
  | PList l => PList (map tuples_as_lists l)
  | PTuple l => PList (map tuples_as_lists l)
  | PDict d => PDict (map (fun kv => (kv.1, tuples_as_lists kv.2)) d)
  | _ => v
  end.

(** Data made of [None], booleans, numbers, strings, lists and dicts. *)
Fixpoint tuple_free (v : pyval) : bool :=
  match v with
  | PList l => forallb tuple_free l
  | PTuple _ => false
  | PDict d => forallb (fun kv => tuple_free kv.2) d
  | _ => true
  end.

End Json.

(** ** The file system seen through [os] and [open]

    Path names are compared as strings.  A node is a directory or a
    regular file, and carries its creation time; a file holds a JSON
    document, or [None] when a writer stopped before the document was
    complete.  Intermediate directories and permissions are not tracked. *)

Module Os.

Inductive node :=
| Dir
| File (content : option Json.json).

Record filesystem := {
  nodes : gmap string (node * Z);
  clock : Z
}.

Definition curdir : string := ".".

Definition is_dir (fs : filesystem) (p : string) : bool :=
  match nodes fs !! p with
  | Some (Dir, _) => true
  | _ => false
  end.

Definition is_file (fs : filesystem) (p : string) : bool :=
  match nodes fs !! p with
  | Some (File _, _) => true
  | _ => false
  end.

(** [open(p, 'rt')] followed by [json.load]. *)
Definition read_file (fs : filesystem) (p : string) : result Json.json :=
  match nodes fs !! p with
  | Some (File (Some c), _) => Ok c
  | Some (File None, _) => Raise ValueError
  | _ => Raise OSError
  end.

Fixpoint ends_with_sep (s : string) : bool :=
  match s with
  | EmptyString => false
  | String c EmptyString => Ascii.eqb c "/"%char
  | String _ rest => ends_with_sep rest
  end.

Definition is_abs (s : string) : bool :=
  match s with
  | String c _ => Ascii.eqb c "/"%char
  | EmptyString => false
  end.

(** [os.path.join(a, b)] for two components (POSIX). *)
Definition path_join (a b : string) : string :=
  if is_abs b then b
  else if String.eqb a "" || ends_with_sep a then a +:+ b
  else a +:+ "/" +:+ b.

(** [os.makedirs(p)]: raises [OSError] when [p] is empty or already
    names a node (directory or file); otherwise the directory exists
    afterwards. *)
Definition makedirs (p : string) (fs : filesystem) : result filesystem :=
  if String.eqb p "" then Raise OSError
  else match nodes fs !! p with
       | Some _ => Raise OSError
       | None => Ok {| nodes := <[p := (Dir, clock fs)]> (nodes fs);
                       clock := (clock fs + 1)%Z |}
       end.

(** [open(p, 'wt')] followed by writing [content]: raises [OSError]
    when [p] names a directory; a file keeps its creation time when it
    is overwritten. *)
Definition write_file (p : string) (content : option Json.json) (fs : filesystem)
  : result filesystem :=
  match nodes fs !! p with
  | Some (Dir, _) => Raise OSError
  | Some (File _, t) =>
      Ok {| nodes := <[p := (File content, t)]> (nodes fs); clock := clock fs |}
  | None =>
      Ok {| nodes := <[p := (File content, clock fs)]> (nodes fs);
            clock := (clock fs + 1)%Z |}
  end.

(** [os.path.getctime(p)] *)
Definition getctime (fs : filesystem) (p : string) : result Z :=
  match nodes fs !! p with
  | Some (_, t) => Ok t
  | None => Raise OSError
  end.

End Os.


(** ** Layer configurations *)

Module LayerConfigs.

(** Modelled from the spec: [modelwrangler/layer_configs.py] (the classes
    [LayerConfig] and [ConvLayerConfig]) is not among the sources.  The
    spec gives a layer option the attributes activation, bias,
    regularization, batchnorm and dropout_rate, every one with a default;
    the attribute names are the ones [tf_models.py] reads and the
    parameter tables of the architectures write. *)
Record LayerConfig := {
  activation : pyval;
  act_reg : pyval;
  bias : pyval;
  batchnorm : pyval;
  dropout_rate : pyval
}.

(** Modelled from the spec: the convolutional subtype adds kernel,
    strides and pool_size. *)
Record ConvLayerConfig := {
  conv_base : LayerConfig;
  kernel : pyval;
  strides : pyval;
  pool_size : pyval
}.

Inductive layer_class := LayerConfigCls | ConvLayerConfigCls.

(** An instance of [LayerConfig] or of its subclass. *)
Inductive layer_obj :=
| LayerObj (c : LayerConfig)
| ConvLayerObj (c : ConvLayerConfig).

Definition base_config (o : layer_obj) : LayerConfig :=
  match o with
  | LayerObj c => c
  | ConvLayerObj c => conv_base c
  end.

(** The instance's [__dict__]. *)
Definition LayerConfig_dict (c : LayerConfig) : list (string * pyval) :=
  [("activation", activation c); ("act_reg", act_reg c); ("bias", bias c);
   ("batchnorm", batchnorm c); ("dropout_rate", dropout_rate c)].

Definition layer_dict (o : layer_obj) : list (string * pyval) :=
  match o with
  | LayerObj c => LayerConfig_dict c
  | ConvLayerObj c =>
      LayerConfig_dict (conv_base c) ++
      [("kernel", kernel c); ("strides", strides c); ("pool_size", pool_size c)]
  end.

Section Constructors.
(** The default of every attribute; the spec fixes none of them. *)
Context (layer_defaults : LayerConfig) (conv_defaults : ConvLayerConfig).

(** Modelled from the spec: the constructor, called with a mapping as
    keyword arguments, takes every
    attribute from the mapping, or its default. *)
Definition LayerConfig_init (defaults : LayerConfig)
    (kwargs : list (string * pyval)) : LayerConfig :=
  {| activation := dict_get kwargs "activation" (activation defaults);
     act_reg := dict_get kwargs "act_reg" (act_reg defaults);
     bias := dict_get kwargs "bias" (bias defaults);
     batchnorm := dict_get kwargs "batchnorm" (batchnorm defaults);
     dropout_rate := dict_get kwargs "dropout_rate" (dropout_rate defaults) |}.

Definition ConvLayerConfig_init (kwargs : list (string * pyval)) : ConvLayerConfig :=
  {| conv_base := LayerConfig_init (conv_base conv_defaults) kwargs;
     kernel := dict_get kwargs "kernel" (kernel conv_defaults);
     strides := dict_get kwargs "strides" (strides conv_defaults);
     pool_size := dict_get kwargs "pool_size" (pool_size conv_defaults) |}.

Definition layer_new (cls : layer_class) (kwargs : list (string * pyval)) : layer_obj :=
  match cls with
  | LayerConfigCls => LayerObj (LayerConfig_init layer_defaults kwargs)
  | ConvLayerConfigCls => ConvLayerObj (ConvLayerConfig_init kwargs)
  end.
End Constructors.

End LayerConfigs.
Export LayerConfigs.

(** ** Objects held by attributes and keyword arguments *)

Module Objects.

(** The network classes of [tf_models.py] and [corral/]. *)
Inductive network_class := BaseNetworkCls | DenseAutoencoderModelCls.

(** What an attribute or a keyword argument holds: plain data, a layer
    configuration instance, or a network class. *)
Inductive attr :=
| Plain (v : pyval)
| Layer (o : layer_obj)
| Class (c : network_class).

(** [getattr(obj, name)] on the instance dictionary [vars(obj)]. *)
Definition getattr (self : gmap string attr) (name : string) : result attr :=
  match self !! name with
  | Some v => Ok v
  | None => Raise (AttributeError name)
  end.

(** A value used where the library wants a [str]. *)
Definition as_str (v : attr) : result string :=
  match v with
  | Plain (PStr s) => Ok s
  | _ => Raise TypeError
  end.

(** A value used after [**]. *)
Definition as_mapping (v : attr) : result (list (string * pyval)) :=
  match v with
  | Plain (PDict d) => Ok d
  | _ => Raise TypeError
  end.

(** A value used where the engine wants plain data (a size, a rate). *)
Definition as_data (v : attr) : result pyval :=
  match v with
  | Plain v => Ok v
  | _ => Raise TypeError
  end.

(** [iter(v)]: the elements a [for] loop over [v] visits. *)
Definition py_iter (v : pyval) : result (list pyval) :=
  match v with
  | PList l | PTuple l => Ok l
  | PStr s => Ok (map PStr (str_iter s))
  | PDict d => Ok (map (fun kv => PStr kv.1) d)
  | _ => Raise TypeError
  end.

(** [bool(v)]; instances and classes are truthy. *)
Definition attr_truthy (v : attr) : bool :=
  match v with
  | Plain v => truthy v
  | _ => true
  end.

End Objects.
Export Objects.

(** ** The tensor engine's graph

    A tensor handle is the term of the engine calls that built it; the
    constructors are the calls the sources make, with the arguments they
    pass.  What the engine computes is not modelled. *)

Module Tf.

Inductive tensor :=
| placeholder (dtype name : string) (shape : option (list pyval))
| layers_dense (inputs : tensor) (units activation use_bias activity_regularizer : pyval)
    (name : string)
| layers_batch_normalization (inputs training : tensor) (name : string)
| layers_dropout (inputs : tensor) (rate : pyval) (training : tensor) (name : string)
| conv (inputs : tensor) (filters kernel strides : pyval) (name : string)
| deconv (inputs : tensor) (filters kernel strides : pyval) (name : string)
| pool (inputs : tensor) (pool_size : pyval) (name : string)
| unpool (inputs : tensor) (pad_size : pyval) (name : string)
| unstride (inputs : tensor) (strides : pyval) (name : string)
| fit_to_shape (inputs : tensor) (shape : option (list pyval))
| loss_mse (target output : tensor)
| loss_sigmoid_ce (a b : tensor)
| gradients (ys xs : tensor).

(** [t.get_shape().as_list()]: the declared shape of a placeholder; the
    sources ask it of placeholders only, and shape inference for the
    other nodes is the engine's. *)
Definition get_shape (t : tensor) : option (list pyval) :=
  match t with
  | placeholder _ _ shape => shape
  | _ => None
  end.

(** The stage a node of a layer stack is. *)
Inductive stage := Transform | BatchNorm | Pooling | Unpool | Unstride | Dropout.

Definition stage_of (t : tensor) : option stage :=
  match t with
  | layers_dense _ _ _ _ _ _ | conv _ _ _ _ _ | deconv _ _ _ _ _ => Some Transform
  | layers_batch_normalization _ _ _ => Some BatchNorm
  | pool _ _ _ => Some Pooling
  | unpool _ _ _ => Some Unpool
  | unstride _ _ _ => Some Unstride
  | layers_dropout _ _ _ _ => Some Dropout
  | _ => None
  end.

(** The tensor a stage is applied to. *)
Definition stage_input (t : tensor) : option tensor :=
  match t with
  | layers_dense i _ _ _ _ _ | conv i _ _ _ _ | deconv i _ _ _ _
  | layers_batch_normalization i _ _ | pool i _ _ | unpool i _ _
  | unstride i _ _ | layers_dropout i _ _ _ => Some i
  | _ => None
  end.

(** [optimizer.minimize(loss)] for [MomentumOptimizer(learning_rate, momentum)]. *)
Record train_op := {
  learning_rate : pyval;
  momentum : Q;
  minimized : tensor
}.

(** [tf.train.Saver(name=..., filename=..., pad_step_number=..., max_to_keep=...)] *)
Record saver := {
  saver_name : pyval;
  saver_filename : pyval;
  pad_step_number : bool;
  max_to_keep : Z
}.

End Tf.
Export Tf.

(** ** [modelwrangler/tf_models.py]: parameter objects *)

Module TfModels.

(** [make_dir]: the [OSError] of [os.makedirs] is caught and logged. *)
Definition make_dir (path : string) (fs : Os.filesystem) : result Os.filesystem :=
  match Os.makedirs path fs with
  | Ok fs' => Ok fs'
  | Raise OSError => Ok fs
  | Raise e => Raise e
  end.

(** The class-level tables of a parameter class. *)
Record params_class := {
  LAYER_PARAM_TYPES : list (string * layer_class);
  DATASET_MANAGER_PARAMS : list (string * pyval);
  REQUIRED_ATTRIBUTES : list (string * pyval);
  MODEL_SPECIFIC_ATTRIBUTES : list (string * pyval)
}.

Definition BaseNetworkParams : params_class :=
  {| LAYER_PARAM_TYPES := [];
     DATASET_MANAGER_PARAMS := [("holdout_prop", PFloat (1 # 10))];
     REQUIRED_ATTRIBUTES :=
       [("verb", PBool true); ("path", PStr ""); ("meta_filename", PStr "");
        ("tb_log_path", PStr ""); ("batch_size", PInt 256);
        ("num_epochs", PInt 3); ("learning_rate", PFloat (1 # 10000))];
     MODEL_SPECIFIC_ATTRIBUTES :=
       [("name", PStr "newmodel"); ("in_size", PInt 10); ("out_size", PInt 3);
        ("max_iter", PInt 500)] |}.

Section Params.
Context (layer_defaults : LayerConfig) (conv_defaults : ConvLayerConfig).

(** [for attr in TABLE: setattr(self, attr, kwargs.get(attr, TABLE[attr]))] *)
Definition set_from (table : list (string * pyval)) (kwargs : list (string * attr))
    (self : gmap string attr) : gmap string attr :=
  foldl (fun self kv => <[kv.1 := dict_get kwargs kv.1 (Plain kv.2)]> self) self table.

(** The attribute assignments of [__init__], up to the derived paths. *)
Definition init_attributes (cls : params_class) (kwargs : list (string * attr))
    : result (gmap string attr * string * string) :=
  let self := set_from (REQUIRED_ATTRIBUTES cls) kwargs ∅ in
  let self := set_from (MODEL_SPECIFIC_ATTRIBUTES cls) kwargs self in
  let self := set_from (DATASET_MANAGER_PARAMS cls) kwargs self in
  name <- getattr self "name";;
  name <- as_str name;;
  let self := <["path" := dict_get kwargs "path"
                            (Plain (PStr (Os.path_join Os.curdir name)))]> self in
  path <- getattr self "path";;
  path <- as_str path;;
  let meta_filename := Os.path_join path "saver-meta" in
  let self := <["meta_filename" := Plain (PStr meta_filename)]> self in
  let tb_log_path := Os.path_join path "tb_log" in
  let self := <["tb_log_path" := Plain (PStr tb_log_path)]> self in
  Ok (self, path, tb_log_path).

(** The loop over [LAYER_PARAM_TYPES]: the attribute, which has to be
    a mapping, is replaced by the instance its declared class builds
    from it. *)
Fixpoint promote_layers (types : list (string * layer_class))
    (self : gmap string attr) : result (gmap string attr) :=
  match types with
  | [] => Ok self
  | (a, cls) :: rest =>
      v <- getattr self a;;
      d <- as_mapping v;;
      promote_layers rest
        (<[a := Layer (layer_new layer_defaults conv_defaults cls d)]> self)
  end.

(** [BaseNetworkParams.__init__]: the file system after the call, and
    the instance dictionary or the exception. *)
Definition init (cls : params_class) (kwargs : list (string * attr))
    (fs : Os.filesystem) : Os.filesystem * result (gmap string attr) :=
  match init_attributes cls kwargs with
  | Raise e => (fs, Raise e)
  | Ok (self, path, tb_log_path) =>
      match make_dir path fs with
      | Raise e => (fs, Raise e)
      | Ok fs1 =>
          match make_dir tb_log_path fs1 with
          | Raise e => (fs1, Raise e)
          | Ok fs2 => (fs2, promote_layers (LAYER_PARAM_TYPES cls) self)
          end
      end
  end.
End Params.

(** [issubclass(v.__class__, LayerConfig)] *)
Definition is_layer_config (v : attr) : bool :=
  match v with
  | Layer _ => true
  | _ => false
  end.

(** The loop of [save] over [dict_to_dump = vars(self)]: the dictionary
    is the instance's own, so the assignments change the instance. *)
Definition convert_layer_attrs (dict_to_dump : gmap string attr) : gmap string attr :=
  foldl (fun d key =>
           match d !! key with
           | Some (Layer o) => <[key := Plain (PDict (layer_dict o))]> d
           | _ => d
           end)
        dict_to_dump (map fst (map_to_list dict_to_dump)).

(** [json.dump] of an instance dictionary; an instance or a class is
    not serializable. *)
Definition dump_attr (v : attr) : result Json.json :=
  match v with
  | Plain v => Ok (Json.dump v)
  | _ => Raise TypeError
  end.

Fixpoint dump_items (items : list (string * attr)) : result (list (string * Json.json)) :=
  match items with
  | [] => Ok []
  | (k, v) :: rest =>
      j <- dump_attr v;;
      js <- dump_items rest;;
      Ok ((k, j) :: js)
  end.

Definition dump_vars (d : gmap string attr) : result Json.json :=
  items <- dump_items (map_to_list d);;
  Ok (Json.JObj items).

(** The name [save] writes to. *)
Definition params_fname (path name : string) : string :=
  Os.path_join path (str_join "-" [name; "params.json"]).

(** [BaseNetworkParams.save]: the instance dictionary and the file
    system after the call, and whether it returned or raised. *)
Definition save (self : gmap string attr) (fs : Os.filesystem)
    : gmap string attr * Os.filesystem * result unit :=
  match (p <- getattr self "path";; as_str p) with
  | Raise e => (self, fs, Raise e)
  | Ok path =>
      match make_dir path fs with
      | Raise e => (self, fs, Raise e)
      | Ok fs1 =>
          match (n <- getattr self "name";; as_str n) with
          | Raise e => (self, fs1, Raise e)
          | Ok name =>
              let params_fname := params_fname path name in
              let dict_to_dump := convert_layer_attrs self in
              match Os.write_file params_fname None fs1 with
              | Raise e => (dict_to_dump, fs1, Raise e)
              | Ok fs2 =>
                  match dump_vars dict_to_dump with
                  | Raise e => (dict_to_dump, fs2, Raise e)
                  | Ok doc =>
                      match Os.write_file params_fname (Some doc) fs2 with
                      | Raise e => (dict_to_dump, fs2, Raise e)
                      | Ok fs3 => (dict_to_dump, fs3, Ok tt)
                      end
                  end
              end
          end
      end
  end.

(** ** [BaseNetwork]: the layer builders *)

Section BaseNetwork.
Context (layer_defaults : LayerConfig) (conv_defaults : ConvLayerConfig).
(** [self.is_training] *)
Context (is_training : tensor).

Definition _make_batchnorm (input_layer : tensor) (name : string) : result tensor :=
  Ok (layers_batch_normalization input_layer is_training name).

Definition _make_dropout (layer_config : LayerConfig) (input_layer : tensor)
    (name : string) : result tensor :=
  Ok (layers_dropout input_layer (dropout_rate layer_config) is_training name).

Definition _make_conv (input_layer : tensor) (num_units : pyval) (name : string)
    (layer_config : ConvLayerConfig) : tensor :=
  conv input_layer num_units (kernel layer_config) (strides layer_config) name.

Definition _make_deconv (input_layer : tensor) (num_units : pyval) (name : string)
    (layer_config : ConvLayerConfig) : tensor :=
  deconv input_layer num_units (kernel layer_config) (strides layer_config) name.

Definition _make_maxpooling (layer_config : ConvLayerConfig) (input_layer : tensor)
    (name : string) : result tensor :=
  Ok (pool input_layer (pool_size layer_config) name).

(** [i - 1] for an element of [pool_size]. *)
Definition minus_one (v : pyval) : result pyval :=
  match v with
  | PInt n => Ok (PInt (n - 1))
  | PBool b => Ok (PInt ((if b then 1 else 0) - 1))
  | PFloat x => Ok (PFloat (x - 1))
  | _ => Raise TypeError
  end.

Fixpoint minus_one_each (l : list pyval) : result (list pyval) :=
  match l with
  | [] => Ok []
  | v :: rest =>
      v' <- minus_one v;;
      rest' <- minus_one_each rest;;
      Ok (v' :: rest')
  end.

(** [pool_size - 1] for an [int], [[i - 1 for i in pool_size]] otherwise. *)
Definition pad_size (pool_size : pyval) : result pyval :=
  match pool_size with
  | PInt n => Ok (PInt (n - 1))
  | PBool b => Ok (PInt ((if b then 1 else 0) - 1))
  | _ =>
      l <- py_iter pool_size;;
      l' <- minus_one_each l;;
      Ok (PList l')
  end.

Definition _make_unpool (layer_config : ConvLayerConfig) (input_layer : tensor)
    (name : string) : result tensor :=
  p <- pad_size (pool_size layer_config);;
  Ok (unpool input_layer p name).

Definition _make_unstride (layer_config : ConvLayerConfig) (input_layer : tensor)
    (name : string) : result tensor :=
  Ok (unstride input_layer (strides layer_config) name).

(** The two local lists of a builder, [name_stack] and [layer_stack]. *)
Definition stacks : Type := list string * list tensor.

(** [layer_stack[-1]] *)
Definition top (layer_stack : list tensor) : result tensor :=
  match last layer_stack with
  | Some t => Ok t
  | None => Raise IndexError
  end.

(** [if option: name_stack.append(stage);
     layer_stack.append(make(layer_stack[-1], '_'.join(name_stack)))] *)
Definition add_stage (option : pyval) (stage : string)
    (make : tensor -> string -> result tensor) (st : stacks) : result stacks :=
  if truthy option then
    let name_stack := st.1 ++ [stage] in
    input_layer <- top st.2;;
    layer <- make input_layer (str_join "_" name_stack);;
    Ok (name_stack, st.2 ++ [layer])
  else Ok st.

(** The configuration a dense builder works with: a dict is turned
    into a [LayerConfig], anything that is not a [LayerConfig] then
    fails the assertion. *)
Definition dense_config (layer_config : attr) : result LayerConfig :=
  match layer_config with
  | Plain (PDict d) => Ok (LayerConfig_init layer_defaults d)
  | Layer o => Ok (base_config o)
  | _ => Raise AssertionError
  end.

Definition conv_config (layer_config : attr) : result ConvLayerConfig :=
  match layer_config with
  | Plain (PDict d) => Ok (ConvLayerConfig_init conv_defaults d)
  | Layer (ConvLayerObj c) => Ok c
  | _ => Raise AssertionError
  end.

(** [make_dense_layer] up to its [return]: the stacks it has built. *)
Definition make_dense_layer_stacks (input_layer : tensor) (num_units : pyval)
    (label : string) (layer_config : attr) : result stacks :=
  c <- dense_config layer_config;;
  let name_stack := [label] in
  let layer_stack :=
    [layers_dense input_layer num_units (activation c) (bias c) (act_reg c)
       (str_join "_" name_stack)] in
  st <- add_stage (batchnorm c) "batchnorm" _make_batchnorm (name_stack, layer_stack);;
  add_stage (dropout_rate c) "dropout" (_make_dropout c) st.

Definition make_dense_layer (input_layer : tensor) (num_units : pyval)
    (label : string) (layer_config : attr) : result tensor :=
  st <- make_dense_layer_stacks input_layer num_units label layer_config;;
  top st.2.

Definition make_conv_layer_stacks (input_layer : tensor) (num_units : pyval)
    (label : string) (layer_config : attr) : result stacks :=
  c <- conv_config layer_config;;
  let name_stack := [label] in
  let layer_stack :=
    [_make_conv input_layer num_units (str_join "_" name_stack) c] in
  st <- add_stage (batchnorm (conv_base c)) "batchnorm" _make_batchnorm
          (name_stack, layer_stack);;
  st <- add_stage (pool_size c) "pooling" (_make_maxpooling c) st;;
  add_stage (dropout_rate (conv_base c)) "dropout" (_make_dropout (conv_base c)) st.

Definition make_conv_layer (input_layer : tensor) (num_units : pyval)
    (label : string) (layer_config : attr) : result tensor :=
  st <- make_conv_layer_stacks input_layer num_units label layer_config;;
  top st.2.

Definition make_deconv_layer_stacks (input_layer : tensor) (num_units : pyval)
    (label : string) (layer_config : attr) : result stacks :=
  c <- conv_config layer_config;;
  let name_stack := [label] in
  let layer_stack :=
    [_make_deconv input_layer num_units (str_join "_" name_stack) c] in
  st <- add_stage (batchnorm (conv_base c)) "batchnorm" _make_batchnorm
          (name_stack, layer_stack);;
  st <- add_stage (pool_size c) "unpool" (_make_unpool c) st;;
  st <- add_stage (strides c) "unstride" (_make_unstride c) st;;
  add_stage (dropout_rate (conv_base c)) "dropout" (_make_dropout (conv_base c)) st.

Definition make_deconv_layer (input_layer : tensor) (num_units : pyval)
    (label : string) (layer_config : attr) : result tensor :=
  st <- make_deconv_layer_stacks input_layer num_units label layer_config;;
  top st.2.
End BaseNetwork.

(** ** [BaseNetwork]: set-up and construction *)

(** The tensors an instance under construction holds as attributes. *)
Definition self_tensor (self : gmap string tensor) (name : string) : result tensor :=
  match self !! name with
  | Some t => Ok t
  | None => Raise (AttributeError name)
  end.

(** [BaseNetwork.setup_layers]: the tuple
    [(in_layer, out_layer, target_layer, loss)]. *)
Definition setup_layers (self : gmap string tensor) (params : gmap string attr)
    : result (tensor * tensor * tensor * tensor) :=
  in_size <- getattr params "in_size";;
  in_size <- as_data in_size;;
  let in_layer := placeholder "float" "input" (Some [PNone; in_size]) in
  self_input <- self_tensor self "input";;
  out_size <- getattr params "out_size";;
  out_size <- as_data out_size;;
  let out_layer := layers_dense self_input out_size PNone (PBool true) PNone "output" in
  out_size' <- getattr params "out_size";;
  out_size' <- as_data out_size';;
  let target_layer := placeholder "float" "target" (Some [PNone; out_size']) in
  let loss := loss_sigmoid_ce target_layer in_layer in
  Ok (in_layer, out_layer, target_layer, loss).

(** The attributes of a constructed network. *)
Record network := {
  is_training : tensor;
  input : tensor;
  output : tensor;
  target : tensor;
  loss : tensor;
  train_step : train_op;
  tb_log : pyval;
  saver : Tf.saver
}.

(** [BaseNetwork.__init__]; [setup] is the [setup_layers] of the class
    being instantiated. *)
Definition BaseNetwork_init
    (setup : gmap string tensor -> gmap string attr ->
             result (tensor * tensor * tensor * tensor))
    (params : gmap string attr) : result network :=
  let is_training := placeholder "bool" "is_training" None in
  let self : gmap string tensor := {["is_training" := is_training]} in
  layers <- setup self params;;
  let '(input, output, target, loss) := layers in
  lr <- getattr params "learning_rate";;
  lr <- as_data lr;;
  let train_step := {| learning_rate := lr; momentum := 9 # 10; minimized := loss |} in
  tb_log_path <- getattr params "tb_log_path";;
  tb_log_path <- as_data tb_log_path;;
  name <- getattr params "name";;
  name <- as_data name;;
  meta_filename <- getattr params "meta_filename";;
  meta_filename <- as_data meta_filename;;
  Ok {| is_training := is_training; input := input; output := output;
        target := target; loss := loss; train_step := train_step;
        tb_log := tb_log_path;
        saver := {| saver_name := name; saver_filename := meta_filename;
                    pad_step_number := true; max_to_keep := 4 |} |}.

End TfModels.


(** ** [modelwrangler/corral/dense_autoencoder.py]: parameters and model *)

Module DenseAutoencoderModel.

(** [DenseAutoencoderParams]: the tables it overrides, the others are
    inherited from [BaseNetworkParams]. *)
Definition DenseAutoencoderParams : TfModels.params_class :=
  {| TfModels.LAYER_PARAM_TYPES :=
       [("encode_params", LayerConfigCls); ("decode_params", LayerConfigCls);
        ("bottleneck_params", LayerConfigCls); ("output_params", LayerConfigCls)];
     TfModels.DATASET_MANAGER_PARAMS :=
       TfModels.DATASET_MANAGER_PARAMS TfModels.BaseNetworkParams;
     TfModels.REQUIRED_ATTRIBUTES :=
       TfModels.REQUIRED_ATTRIBUTES TfModels.BaseNetworkParams;
     TfModels.MODEL_SPECIFIC_ATTRIBUTES :=
       [("name", PStr "autoenc"); ("in_size", PInt 10);
        ("encode_nodes", PList [PInt 5; PInt 5]);
        ("encode_params", PDict [("dropout_rate", PFloat (1 # 10))]);
        ("decode_nodes", PList [PInt 5; PInt 5]);
        ("decode_params", PDict [("dropout_rate", PNone)]);
        ("bottleneck_dim", PInt 3);
        ("bottleneck_params", PDict [("dropout_rate", PNone)]);
        ("output_params",
         PDict [("dropout_rate", PNone); ("activation", PNone); ("act_reg", PNone)])] |}.

Section Model.
Context (layer_defaults : LayerConfig) (conv_defaults : ConvLayerConfig).

(** [for idx, num_nodes in enumerate(nodes):
       layers.append(self.make_dense_layer(
         layers[-1], num_nodes, '<prefix>_{}'.format(idx), params.<config>))],
    from index [idx] on. *)
Fixpoint dense_stages (is_training : tensor) (params : gmap string attr)
    (prefix config : string) (idx : nat) (nodes : list pyval)
    (layers : list tensor) : result (list tensor) :=
  match nodes with
  | [] => Ok layers
  | num_nodes :: rest =>
      input_layer <- TfModels.top layers;;
      layer_config <- getattr params config;;
      layer <- TfModels.make_dense_layer layer_defaults is_training
                 input_layer num_nodes (prefix +:+ "_" +:+ pretty idx) layer_config;;
      dense_stages is_training params prefix config (S idx) rest (layers ++ [layer])
  end.

(** [DenseAutoencoderModel.setup_layers] *)
Definition setup_layers (self : gmap string tensor) (params : gmap string attr)
    : result (tensor * tensor * tensor * tensor) :=
  is_training <- TfModels.self_tensor self "is_training";;
  in_size <- getattr params "in_size";;
  in_size <- as_data in_size;;
  let encode_layers := [placeholder "float" "input" (Some [PNone; in_size])] in
  encode_nodes <- getattr params "encode_nodes";;
  encode_nodes <- as_data encode_nodes;;
  encode_nodes <- py_iter encode_nodes;;
  encode_layers <- dense_stages is_training params "encode" "encode_params" 0
                     encode_nodes encode_layers;;
  encoded <- TfModels.top encode_layers;;
  bottleneck_dim <- getattr params "bottleneck_dim";;
  bottleneck_dim <- as_data bottleneck_dim;;
  bottleneck_params <- getattr params "bottleneck_params";;
  bottleneck <- TfModels.make_dense_layer layer_defaults is_training
                  encoded bottleneck_dim "bottleneck" bottleneck_params;;
  let decode_layers := [bottleneck] in
  decode_nodes <- getattr params "decode_nodes";;
  decode_nodes <- as_data decode_nodes;;
  decode_nodes <- py_iter decode_nodes;;
  decode_layers <- dense_stages is_training params "decode" "decode_params" 0
                     decode_nodes decode_layers;;
  in_layer <- match encode_layers with
              | t :: _ => Ok t
              | [] => Raise IndexError
              end;;
  let target_layer := placeholder "float" "target" (get_shape in_layer) in
  decoded <- TfModels.top decode_layers;;
  out_units <- getattr params "in_size";;
  out_units <- as_data out_units;;
  output_params <- getattr params "output_params";;
  output_layer <- TfModels.make_dense_layer layer_defaults is_training
                    decoded out_units "output_layer" output_params;;
  let out_layer := fit_to_shape output_layer (get_shape target_layer) in
  let loss := loss_mse target_layer out_layer in
  Ok (in_layer, out_layer, target_layer, loss).

(** Calling a network class on a parameter object: [BaseNetwork.__init__]
    with the [setup_layers] of the class. *)
Definition construct (cls : network_class) (params : gmap string attr)
    : result TfModels.network :=
  match cls with
  | BaseNetworkCls => TfModels.BaseNetwork_init TfModels.setup_layers params
  | DenseAutoencoderModelCls => TfModels.BaseNetwork_init setup_layers params
  end.
End Model.

End DenseAutoencoderModel.

(** ** [numpy] arrays *)

Module Np.

(** An array: its shape and its entries in row-major order.  Entries
    are rationals; rounding, infinities and NaN are not represented. *)
Record ndarray := {
  shape : list nat;
  data : list Q
}.








End Np.
Export Np.

(** ** [model_wrangler/model_wrangler.py]: [ModelParams] *)

Module ModelParams.

Record t := {
  verb : attr;
  name : attr;
  path : attr;
  in_size : attr;
  out_size : attr;
  max_iter : attr;
  batch_size : attr;
  num_epoch : attr
}.

(** [ModelParams.__init__(kwargs)].  The two [os.path.join] calls need
    strings; the logging set-up itself is not modelled. *)
Definition init (kwargs : list (string * attr)) : result t :=
  let verb := dict_get kwargs "verb" (Plain (PBool true)) in
  let name := dict_get kwargs "name" (Plain (PStr "newmodel")) in
  name_str <- as_str name;;
  let path := dict_get kwargs "path" (Plain (PStr (Os.path_join Os.curdir name_str))) in
  _ <- as_str path;;
  Ok {| verb := verb; name := name; path := path;
        in_size := dict_get kwargs "in_size" (Plain (PInt 10));
        out_size := dict_get kwargs "out_size" (Plain (PInt 3));
        max_iter := dict_get kwargs "max_iter" (Plain (PInt 500));
        batch_size := dict_get kwargs "batch_size" (Plain (PInt 250));
        num_epoch := dict_get kwargs "num_epoch" (Plain (PInt 2)) |}.

(** [vars(self)] *)
Definition vars (self : t) : gmap string attr :=
  list_to_map
    [("verb", verb self); ("name", name self); ("path", path self);
     ("in_size", in_size self); ("out_size", out_size self);
     ("max_iter", max_iter self); ("batch_size", batch_size self);
     ("num_epoch", num_epoch self)].

(** [init_save_dir]: the [OSError] of [os.makedirs] is caught and logged. *)
Definition init_save_dir (self : t) (fs : Os.filesystem) : result Os.filesystem :=
  p <- as_str (path self);;
  match Os.makedirs p fs with
  | Ok fs' => Ok fs'
  | Raise OSError => Ok fs
  | Raise e => Raise e
  end.

(** [max(iterable, key=key)]: the first element whose key is largest;
    an exception of [key] propagates. *)
Fixpoint max_from {A} (key : A -> result Z) (best : A) (best_key : Z)
    (rest : list A) : result A :=
  match rest with
  | [] => Ok best
  | x :: rest =>
      k <- key x;;
      if (best_key <? k)%Z then max_from key x k rest
      else max_from key best best_key rest
  end.

Definition py_max {A} (key : A -> result Z) (iterable : list A) : result A :=
  match iterable with
  | [] => Raise ValueError
  | x :: rest =>
      k <- key x;;
      max_from key x k rest
  end.

(** [find_metagraph]: [meta_list] is the string [os.path.join] returns,
    and [max] iterates over it. *)
Definition find_metagraph (self : t) (fs : Os.filesystem) : result string :=
  p <- as_str (path self);;
  let meta_list := Os.path_join p "*.meta" in
  py_max (Os.getctime fs) (str_iter meta_list).

End ModelParams.

(** ** [model_wrangler/model_wrangler.py]: the training run

    The calls to the dataset provider, the engine's sessions, the logger
    and the persistence layer are the atomic actions of a run; a run
    records them in order.  A pending user interrupt is the number of
    atomic actions that still complete before [KeyboardInterrupt] is
    raised in place of the next one. *)

Module Run.

Inductive feed_value :=
| Values (a : ndarray)
| Flag (b : bool).

(** A [feed_dict]: the placeholders and what is fed to them. *)
Definition feed_dict : Type := list (tensor * feed_value).

Inductive fetch :=
| FetchOp (op : train_op)
| FetchTensor (t : tensor)
| FetchList (l : list tensor).

(** [DatasetManager(input_x, target_y, categorical=..., holdout_prop=...)] *)
Record dataset := {
  input_x : ndarray;
  target_y : ndarray;
  categorical : bool;
  holdout_prop : Q
}.

Inductive event :=
| DatasetManager_new (d : dataset)
| Balanced_batches (pos_classes : pyval) (batch_size : attr)
| Get_holdout_samples
| Log (format : string)
| Session_enter
| Session_exit
| Session_run (f : fetch) (feed : feed_dict)
| Params_save
| Saver_save (save_path : attr) (global_step : Z)
| Print (text : string).

Record world := {
  pending : option nat;
  trace : list event
}.

Definition M (A : Type) : Type := world -> result A * world.

Definition ret {A} (a : A) : M A := fun w => (Ok a, w).

Definition bind {A B} (m : M A) (k : A -> M B) : M B :=
  fun w =>
    match m w with
    | (Ok a, w') => k a w'
    | (Raise e, w') => (Raise e, w')
    end.

Definition lift {A} (r : result A) : M A := fun w => (r, w).

(** One atomic action. *)
Definition emit (e : event) : M unit :=
  fun w =>
    match pending w with
    | Some O => (Raise KeyboardInterrupt, {| pending := None; trace := trace w |})
    | Some (S n) => (Ok tt, {| pending := Some n; trace := trace w ++ [e] |})
    | None => (Ok tt, {| pending := None; trace := trace w ++ [e] |})
    end.

(** [try: body  except KeyboardInterrupt: handler] *)
Definition try_except_KeyboardInterrupt (body handler : M unit) : M unit :=
  fun w =>
    match body w with
    | (Raise KeyboardInterrupt, w') => handler w'
    | r => r
    end.

(** [with tf.Session(...) as sess: body]: the session is released when
    the body returns and when it raises. *)
Definition with_session {A} (body : M A) : M A :=
  fun w =>
    match emit Session_enter w with
    | (Raise e, w') => (Raise e, w')
    | (Ok _, w1) =>
        match body w1 with
        | (r, w2) =>
            match emit Session_exit w2 with
            | (Raise e, w3) => (Raise e, w3)
            | (Ok _, w3) => (r, w3)
            end
        end
    end.

End Run.

Declare Scope run_scope.
Delimit Scope run_scope with run.
Notation "x <- c1 ;; c2" := (Run.bind c1 (fun x => c2))
  (at level 100, c1 at next level, right associativity) : run_scope.
Notation "c1 ;; c2" := (Run.bind c1 (fun _ => c2))
  (at level 100, right associativity) : run_scope.

(** ** [model_wrangler/model_wrangler.py]: [ModelWrangler] *)

Module ModelWrangler.
Import Run.

Record t := {
  params : ModelParams.t;
  tf_mod : TfModels.network
}.

Section Construction.
Context (layer_defaults : LayerConfig).

(** [model_type(self.params)] *)
Definition call (model_type : attr) (params : gmap string attr)
    : result TfModels.network :=
  match model_type with
  | Class cls => DenseAutoencoderModel.construct layer_defaults cls params
  | _ => Raise TypeError
  end.

(** The parameter [model_type] of
[ModelWrangler.__init__(self, model_type=BaseNetwork, **kwargs)] for a
call with the keyword arguments [keywords]: the keyword [model_type]
binds it, and it is [BaseNetwork] when that keyword is not given. *)
Definition bound_model_type (keywords : list (string * attr)) : attr :=
  dict_get keywords "model_type" (Class BaseNetworkCls).

(** [ModelWrangler.__init__]: every keyword other than [model_type]
goes to [kwargs]. *)
Definition init (keywords : list (string * attr)) : result t :=
  let model_type := bound_model_type keywords in
  let kwargs := filter (fun kv => kv.1 ≠ "model_type") keywords in
  params <- ModelParams.init kwargs;;
  tf_mod <- call model_type (ModelParams.vars params);;
  Ok {| params := params; tf_mod := tf_mod |}.

(** What [load] hands to the engine to restore the weights. *)
Record restored := {
  model : t;
  meta_graph : string;
  checkpoint_dir : attr
}.

(** The first statement of [load]: [params = json.load(pfile)]. *)
Definition load_params (param_file : string) (fs : Os.filesystem) : result pyval :=
  doc <- Os.read_file fs param_file;;
  Ok (Json.load doc).

(** [params[key]] *)
Definition field (params : pyval) (key : string) : option pyval :=
  match params with
  | PDict d => dict_lookup key d
  | _ => None
  end.

(** [ModelWrangler.load(param_file)]: the new model, the meta file
    given to [import_meta_graph] and the directory given to
    [latest_checkpoint]. *)
Definition load (param_file : string) (fs : Os.filesystem) : result restored :=
  params <- load_params param_file fs;;
  keywords <- match params with
              | PDict d => Ok (map (fun kv => (kv.1, Plain kv.2)) d)
              | _ => Raise TypeError
              end;;
  new_model <- init keywords;;
  meta <- ModelParams.find_metagraph (ModelWrangler.params new_model) fs;;
  Ok {| model := new_model; meta_graph := meta;
        checkpoint_dir := ModelParams.path (ModelWrangler.params new_model) |}.
End Construction.

#[local] Open Scope run_scope.

Section Training.
(** The dataset provider ([dataset_managers.py] is not among the
    sources): the batches an epoch's iterator yields, as a finite
    list, and the holdout pair. *)
Context (balanced_batches : dataset -> pyval -> attr -> list (ndarray * ndarray)).
Context (get_holdout_samples : dataset -> ndarray * ndarray).
(** The engine: the value of a tensor under a feed after the actions
    so far. *)
Context (tensor_value : list event -> tensor -> feed_dict -> ndarray).

Definition log (format : string) : M unit := emit (Log format).

(** [sess.run(tensor, feed_dict)] and [tensor.eval(feed_dict, sess)] *)
Definition session_run_tensor (t : tensor) (feed : feed_dict) : M ndarray :=
  fun w =>
    match emit (Session_run (FetchTensor t) feed) w with
    | (Ok _, w') => (Ok (tensor_value (trace w) t feed), w')
    | (Raise e, w') => (Raise e, w')
    end.


(** [save(iteration)] *)
Definition save (self : t) (iteration : Z) : M unit :=
  emit Params_save;;
  log "Saving weights file in %s";;
  with_session
    (emit (Saver_save (ModelParams.path (params self)) iteration)).

(** [predict(input_x)] *)
Definition predict (self : t) (input_x : ndarray) : M ndarray :=
  let data_dict :=
    [(TfModels.input (tf_mod self), Values input_x);
     (TfModels.is_training (tf_mod self), Flag false)] in
  with_session (session_run_tensor (TfModels.output (tf_mod self)) data_dict).

(** [score(input_x, target_y, score_func=None)] *)
Definition score (self : t) (input_x target_y : ndarray) (score_func : option tensor)
    : M ndarray :=
  let data_dict :=
    [(TfModels.input (tf_mod self), Values input_x);
     (TfModels.target (tf_mod self), Values target_y);
     (TfModels.is_training (tf_mod self), Flag false)] in
  let score_func := match score_func with
                    | None => TfModels.loss (tf_mod self)
                    | Some f => f
                    end in
  with_session (session_run_tensor score_func data_dict).


(** The [for] loop of [_run_epoch] from [batch_counter] on. *)
Fixpoint batch_loop (self : t) (X_holdout y_holdout : ndarray) (batch_counter : Z)
    (batches : list (ndarray * ndarray)) : M unit :=
  match batches with
  | [] => ret tt
  | (X_batch, y_batch) :: rest =>
      let data_dict :=
        [(TfModels.input (tf_mod self), Values X_batch);
         (TfModels.target (tf_mod self), Values y_batch);
         (TfModels.is_training (tf_mod self), Flag true)] in
      emit (Session_run (FetchOp (TfModels.train_step (tf_mod self))) data_dict);;
      let batch_counter := (batch_counter + 1)%Z in
      (if (batch_counter mod 100 =? 0)%Z then
         log "Batch number %d";;
         train_error <- score self X_holdout y_holdout None;;
         log "Training score: %0.6f"
       else ret tt);;
      batch_loop self X_holdout y_holdout batch_counter rest
  end.

(** [_run_epoch(sess, dataset, pos_classes)] *)
Definition _run_epoch (self : t) (dataset : Run.dataset) (pos_classes : pyval)
    : M unit :=
  emit (Balanced_batches pos_classes (ModelParams.batch_size (params self)));;
  let batch_iterator :=
    balanced_batches dataset pos_classes (ModelParams.batch_size (params self)) in
  emit Get_holdout_samples;;
  let '(X_holdout, y_holdout) := get_holdout_samples dataset in
  batch_loop self X_holdout y_holdout 0 batch_iterator.

(** [range(v)] *)
Definition py_range (v : attr) : result (list Z) :=
  match v with
  | Plain (PInt n) => Ok (range n)
  | Plain (PBool b) => Ok (range (if b then 1 else 0))
  | _ => Raise TypeError
  end.

(** [for epoch in epochs: ...] of [train]. *)
Fixpoint epoch_loop (self : t) (dataset : Run.dataset) (pos_classes : pyval)
    (epochs : list Z) : M unit :=
  match epochs with
  | [] => ret tt
  | epoch :: rest =>
      log "Starting Epoch %d";;
      _run_epoch self dataset pos_classes;;
      save self epoch;;
      epoch_loop self dataset pos_classes rest
  end.

(** [train(input_x, target_y, pos_classes)] *)
Definition train (self : t) (input_x target_y : ndarray) (pos_classes : pyval)
    : M unit :=
  let dataset := {| Run.input_x := input_x; Run.target_y := target_y;
                    categorical := true; holdout_prop := 1 # 10 |} in
  emit (DatasetManager_new dataset);;
  try_except_KeyboardInterrupt
    (with_session
       (epochs <- lift (py_range (ModelParams.num_epoch (params self)));;
        epoch_loop self dataset pos_classes epochs))
    (emit (Print "Force-exiting training.")).
End Training.

End ModelWrangler.

(** ** [modelwrangler/corral/dense_autoencoder.py]: the facade *)

Module DenseAutoencoder.

Section Facade.
Context (layer_defaults : LayerConfig).

(** The keyword arguments [DenseAutoencoder.__init__(self, in_size=10,
**kwargs)] passes on to the initializer of [ModelWrangler], when it is
called with the keyword arguments [keywords]: [model_class], [in_size]
and the entries of [kwargs]. *)
Definition super_keywords (keywords : list (string * attr)) : list (string * attr) :=
  let in_size := dict_get keywords "in_size" (Plain (PInt 10)) in
  let kwargs := filter (fun kv => kv.1 ≠ "in_size") keywords in
  ("model_class", Class DenseAutoencoderModelCls) :: ("in_size", in_size) :: kwargs.

(** [DenseAutoencoder.__init__]; a keyword given twice in the call to
the initializer of [ModelWrangler] is a [TypeError]. *)
Definition init (keywords : list (string * attr)) : result ModelWrangler.t :=
  let kwargs := filter (fun kv => kv.1 ≠ "in_size") keywords in
  match dict_lookup "model_class" kwargs with
  | Some _ => Raise TypeError
  | None => ModelWrangler.init layer_defaults (super_keywords keywords)
  end.
End Facade.

End DenseAutoencoder.

(** ** Definitions used to state the properties *)

Module Props.

(** What [save] leaves in an attribute: an instance of a layer
    configuration becomes the plain dict of its attributes. *)
Definition to_plain (v : attr) : attr :=
  match v with
  | Layer o => Plain (PDict (layer_dict o))
  | _ => v
  end.

(** Plain data or a layer configuration: what [json.dump] can write
    once [save] has converted the instances. *)
Definition serializable (v : attr) : bool :=
  match v with
  | Class _ => false
  | _ => true
  end.






(** The dense stage of the specification: the transform, then batch
normalization when it is set, then dropout when it is set. *)
Definition dense_stage (is_training : tensor) (c : LayerConfig) (input : tensor)
    (units : pyval) (label : string) : tensor :=
  let transform :=
    layers_dense input units (activation c) (bias c) (act_reg c) label in
  let normalized :=
    if truthy (batchnorm c)
    then layers_batch_normalization transform is_training
           (str_join "_" [label; "batchnorm"])
    else transform in
  if truthy (dropout_rate c)
  then layers_dropout normalized (dropout_rate c) is_training
         (str_join "_" ([label] ++ (if truthy (batchnorm c) then ["batchnorm"] else [])
                          ++ ["dropout"]))
  else normalized.

(** One dense stage per entry of [nodes], each on the one before. *)
Fixpoint dense_stage_sequence (is_training : tensor) (c : LayerConfig) (prefix : string)
    (idx : nat) (nodes : list pyval) (input : tensor) : tensor :=
  match nodes with
  | [] => input
  | units :: rest =>
      dense_stage_sequence is_training c prefix (S idx) rest
        (dense_stage is_training c input units (prefix +:+ "_" +:+ pretty idx))
  end.

(** The dense autoencoder of the specification: input placeholder,
encode stages, bottleneck, decode stages, output stage fitted to the
shape of the target placeholder, mean squared error. *)
Definition dense_autoencoder_graph (is_training : tensor) (in_size : pyval)
    (encode_nodes : list pyval) (encode_params : LayerConfig)
    (bottleneck_dim : pyval) (bottleneck_params : LayerConfig)
    (decode_nodes : list pyval) (decode_params output_params : LayerConfig)
    : tensor * tensor * tensor * tensor :=
  let in_layer := placeholder "float" "input" (Some [PNone; in_size]) in
  let encoded :=
    dense_stage_sequence is_training encode_params "encode" 0 encode_nodes in_layer in
  let bottleneck :=
    dense_stage is_training bottleneck_params encoded bottleneck_dim "bottleneck" in
  let decoded :=
    dense_stage_sequence is_training decode_params "decode" 0 decode_nodes bottleneck in
  let target_layer := placeholder "float" "target" (Some [PNone; in_size]) in
  let out_layer :=
    fit_to_shape (dense_stage is_training output_params decoded in_size "output_layer")
      (Some [PNone; in_size]) in
  (in_layer, out_layer, target_layer, loss_mse target_layer out_layer).

(** A file system with the current directory only. *)
Definition fresh_fs : Os.filesystem :=
  {| Os.nodes := {["." := (Os.Dir, 0%Z)]}; Os.clock := 1 |}.

(** Defaults for the layer configurations, used in the examples. *)
Definition some_layer_defaults : LayerConfig :=
  {| activation := PStr "relu"; act_reg := PNone; bias := PBool true;
     batchnorm := PBool true; dropout_rate := PFloat 0 |}.

Definition some_conv_defaults : ConvLayerConfig :=
  {| conv_base := some_layer_defaults; kernel := PInt 3; strides := PInt 1;
     pool_size := PInt 2 |}.

(** A parameter object built on [fresh_fs], and the file system after
    its construction; the empty dictionary stands for a construction
    that raised. *)
Definition built (cls : TfModels.params_class) (kwargs : list (string * attr))
    : Os.filesystem * gmap string attr :=
  match TfModels.init some_layer_defaults some_conv_defaults cls kwargs fresh_fs with
  | (fs, Ok self) => (fs, self)
  | (fs, Raise _) => (fs, ∅)
  end.

(** Base parameters whose [in_size] is a tuple, as the convolutional
    architecture accepts; and the default dense-autoencoder parameters. *)
Definition tuple_params : Os.filesystem * gmap string attr :=
  built TfModels.BaseNetworkParams [("in_size", Plain (PTuple [PInt 28; PInt 28]))].

Definition autoenc_params : Os.filesystem * gmap string attr :=
  built DenseAutoencoderModel.DenseAutoencoderParams [].

(** The attributes of the default dense-autoencoder parameters before
    the layer attributes are promoted. *)
Definition autoenc_attributes : gmap string attr :=
  match TfModels.init_attributes DenseAutoencoderModel.DenseAutoencoderParams [] with
  | Ok (self, _, _) => self
  | Raise _ => ∅
  end.

(** Saving a parameter object on the file system it was built on. *)
Definition saved (b : Os.filesystem * gmap string attr)
    : gmap string attr * Os.filesystem * result unit :=
  TfModels.save b.2 b.1.

End Props.

(** ** Definitions used to state the properties of the training run *)

Module RunProps.
Import Run.

(** The world after the actions [evs] have completed. *)
Definition after (w : world) (evs : list event) : world :=
  {| pending := (fun k => k - length evs)%nat <$> pending w;
     trace := trace w ++ evs |}.

(** Whether all of [evs] complete before the pending interrupt. *)
Definition fits (w : world) (evs : list event) : bool :=
  match pending w with
  | None => true
  | Some k => (length evs <=? k)%nat
  end.

(** The world after the interrupt has been raised inside [evs]: the
actions before it are recorded, followed by the actions [closing] of
the blocks that are left. *)
Definition interrupted (w : world) (evs : list event) (closing : list event)
    : world :=
  match pending w with
  | Some k => {| pending := None; trace := trace w ++ take k evs ++ closing |}
  | None => w
  end.

(** A computation whose actions are [full]: it performs them in order
and returns; under a pending interrupt it performs those that come
before the interrupt, releases the sessions it has entered, and raises
[KeyboardInterrupt]. *)
Definition linear {A} (m : M A) (full : list event) : Prop :=
  ∀ w, if fits w full
       then ∃ a, m w = (Ok a, after w full)
       else ∃ closing,
              Forall (fun e => e = Session_exit) closing ∧
              m w = (Raise KeyboardInterrupt, interrupted w full closing).

Section Events.
Context (self : ModelWrangler.t).

Definition fed (X y : ndarray) (training : bool) : feed_dict :=
  [(TfModels.input (ModelWrangler.tf_mod self), Values X);
   (TfModels.target (ModelWrangler.tf_mod self), Values y);
   (TfModels.is_training (ModelWrangler.tf_mod self), Flag training)].

(** One optimizer step on a batch, with the training flag true. *)
Definition train_step_event (batch : ndarray * ndarray) : event :=
  Session_run (FetchOp (TfModels.train_step (ModelWrangler.tf_mod self)))
    (fed batch.1 batch.2 true).

(** A logged holdout evaluation: the loss on the holdout pair, in a
session of its own, with the training flag false. *)
Definition holdout_events (holdout : ndarray * ndarray) : list event :=
  [Log "Batch number %d"; Session_enter;
   Session_run (FetchTensor (TfModels.loss (ModelWrangler.tf_mod self)))
     (fed holdout.1 holdout.2 false);
   Session_exit; Log "Training score: %0.6f"].

(** The [i]-th batch of an epoch, counted from 1: its optimizer step,
and a holdout evaluation when [i] is a multiple of 100. *)
Definition batch_events (holdout : ndarray * ndarray) (i : nat)
    (batch : ndarray * ndarray) : list event :=
  train_step_event batch ::
  (if (i mod 100 =? 0)%nat then holdout_events holdout else []).

(** The checkpoint of an epoch: the parameter file, then the weights
tagged with the epoch's index. *)
Definition checkpoint_events (epoch : Z) : list event :=
  [Params_save; Log "Saving weights file in %s"; Session_enter;
   Saver_save (ModelParams.path (ModelWrangler.params self)) epoch; Session_exit].

(** One epoch: the balanced batches of the configured size are drained,
then the checkpoint is written. *)
Definition epoch_events (batches : list (ndarray * ndarray))
    (holdout : ndarray * ndarray) (pos_classes : pyval) (epoch : Z) : list event :=
  [Log "Starting Epoch %d";
   Balanced_batches pos_classes (ModelParams.batch_size (ModelWrangler.params self));
   Get_holdout_samples]
  ++ concat (imap (fun i batch => batch_events holdout (S i) batch) batches)
  ++ checkpoint_events epoch.

(** The whole run: the dataset provider with a holdout fraction of one
tenth, then the epochs [0], ..., [num_epoch - 1] in one session. *)
Definition train_events (dataset : Run.dataset) (batches : list (ndarray * ndarray))
    (holdout : ndarray * ndarray) (pos_classes : pyval) (num_epoch : Z) : list event :=
  [DatasetManager_new dataset; Session_enter]
  ++ concat (map (epoch_events batches holdout pos_classes) (range num_epoch))
  ++ [Session_exit].

End Events.


(** The training flags fed to the optimizer steps, and to the
evaluations of a tensor, in a trace. *)
Definition fed_flags (f : feed_dict) : list bool :=
  omap (fun kv => match kv.2 with Flag b => Some b | _ => None end) f.




End RunProps.

(** ** A concrete orchestrator, data set and engine for the examples *)

Module Examples.
Import Run.

(** A network as [DenseAutoencoderModel] assembles it from the default
parameters. *)
Definition some_network : TfModels.network :=
  let is_training := placeholder "bool" "is_training" None in
  let c := Props.some_layer_defaults in
  let '(input, output, target, loss) :=
    Props.dense_autoencoder_graph is_training (PInt 3) [PInt 2] c (PInt 1) c [PInt 2] c c in
  {| TfModels.is_training := is_training; TfModels.input := input;
     TfModels.output := output; TfModels.target := target; TfModels.loss := loss;
     TfModels.train_step :=
       {| learning_rate := PFloat (1 # 10000); momentum := 9 # 10; minimized := loss |};
     TfModels.tb_log := PStr "./newmodel/tb_log";
     TfModels.saver := {| saver_name := PStr "newmodel";
                          saver_filename := PStr "./newmodel/saver-meta";
                          pad_step_number := true; max_to_keep := 4 |} |}.

(** The parameter object [ModelParams] builds from [in_size=3]. *)
Definition some_params : ModelParams.t :=
  {| ModelParams.verb := Plain (PBool true);
     ModelParams.name := Plain (PStr "newmodel");
     ModelParams.path := Plain (PStr "./newmodel");
     ModelParams.in_size := Plain (PInt 3);
     ModelParams.out_size := Plain (PInt 3);
     ModelParams.max_iter := Plain (PInt 500);
     ModelParams.batch_size := Plain (PInt 250);
     ModelParams.num_epoch := Plain (PInt 2) |}.

Definition some_wrangler : ModelWrangler.t :=
  {| ModelWrangler.params := some_params; ModelWrangler.tf_mod := some_network |}.

(** Two rows of three features. *)
Definition some_rows : ndarray :=
  {| Np.shape := [2; 3]%nat; Np.data := [1; 2; 3; -1; 0; 1 # 2]%Q |}.

(** A provider that yields two batches in every epoch. *)
Definition two_batches (d : dataset) (pos_classes : pyval) (batch_size : attr)
    : list (ndarray * ndarray) :=
  [(input_x d, target_y d); (input_x d, target_y d)].

Definition whole_holdout (d : dataset) : ndarray * ndarray :=
  (input_x d, target_y d).

(** An engine whose every value is [some_rows]. *)
Definition constant_engine (tr : list event) (t : tensor) (f : feed_dict) : ndarray :=
  some_rows.

Definition idle : world := {| pending := None; trace := [] |}.

(** A file system holding a model directory with two checkpoint
structure files, the second created after the first. *)
Definition meta_fs : Os.filesystem :=
  {| Os.nodes :=
       list_to_map
         [(".", (Os.Dir, 0%Z)); ("/", (Os.Dir, 0%Z)); ("./newmodel", (Os.Dir, 1%Z));
          ("./newmodel/saver-meta-0.meta", (Os.File None, 5%Z));
          ("./newmodel/saver-meta-1.meta", (Os.File None, 9%Z))];
     Os.clock := 10 |}.

End Examples.

(** ** [model_wrangler/model_wrangler.py]: [ModelParams.save] *)

Module ModelParamsSave.

(** The name [ModelParams.save] writes to. *)
Definition params_fname (self : ModelParams.t) : result string :=
  p <- as_str (ModelParams.path self);;
  n <- as_str (ModelParams.name self);;
  Ok (Os.path_join p (str_join "-" [n; "params.json"])).

(** [ModelParams.save]: the directory is set up, the file is opened for
writing, and [vars(self)] is dumped as it is. *)
Definition save (self : ModelParams.t) (fs : Os.filesystem)
    : Os.filesystem * result unit :=
  match ModelParams.init_save_dir self fs with
  | Raise e => (fs, Raise e)
  | Ok fs1 =>
      match params_fname self with
      | Raise e => (fs1, Raise e)
      | Ok fname =>
          match Os.write_file fname None fs1 with
          | Raise e => (fs1, Raise e)
          | Ok fs2 =>
              match TfModels.dump_vars (ModelParams.vars self) with
              | Raise e => (fs2, Raise e)
              | Ok doc =>
                  match Os.write_file fname (Some doc) fs2 with
                  | Raise e => (fs2, Raise e)
                  | Ok fs3 => (fs3, Ok tt)
                  end
              end
          end
      end
  end.

(** The keyword arguments of [cls( **params)] in [load], for the
mapping [json.load] returned. *)
Definition keywords_of (params : pyval) : result (list (string * attr)) :=
  match params with
  | PDict d => Ok (map (fun kv => (kv.1, Plain kv.2)) d)
  | _ => Raise TypeError
  end.

End ModelParamsSave.

(** ** [modelwrangler/corral/convolutional_autoencoder.py] *)

Module ConvolutionalAutoencoderModel.

(** [ConvolutionalAutoencoderParams]: the tables it overrides. *)
Definition ConvolutionalAutoencoderParams : TfModels.params_class :=
  {| TfModels.LAYER_PARAM_TYPES :=
       [("encode_params", ConvLayerConfigCls); ("bottleneck_params", ConvLayerConfigCls);
        ("decode_params", ConvLayerConfigCls); ("output_params", ConvLayerConfigCls)];
     TfModels.DATASET_MANAGER_PARAMS :=
       TfModels.DATASET_MANAGER_PARAMS TfModels.BaseNetworkParams;
     TfModels.REQUIRED_ATTRIBUTES :=
       TfModels.REQUIRED_ATTRIBUTES TfModels.BaseNetworkParams;
     TfModels.MODEL_SPECIFIC_ATTRIBUTES :=
       [("name", PStr "conv_autoenc"); ("in_size", PInt 40);
        ("encode_nodes", PList [PInt 10]);
        ("encode_params",
         PDict [("dropout_rate", PFloat (1 # 10)); ("kernel", PInt 5);
                ("strides", PInt 1); ("pool_size", PInt 2)]);
        ("bottleneck_dim", PInt 3);
        ("bottleneck_params",
         PDict [("dropout_rate", PNone); ("kernel", PInt 5);
                ("strides", PInt 1); ("pool_size", PInt 1)]);
        ("decode_nodes", PList [PInt 10]);
        ("decode_params",
         PDict [("dropout_rate", PNone); ("kernel", PInt 5);
                ("strides", PInt 1); ("pool_size", PInt 2)]);
        ("output_params",
         PDict [("dropout_rate", PNone); ("activation", PNone); ("act_reg", PNone);
                ("kernel", PInt 1); ("strides", PInt 1); ("pool_size", PInt 1)])] |}.

(** [in_shape]: [[None]] extended by [in_size] when that is a list or a
tuple, by [[in_size, 1]] otherwise. *)
Definition in_shape (in_size : pyval) : list pyval :=
  match in_size with
  | PList dims | PTuple dims => PNone :: dims
  | _ => [PNone; in_size; PInt 1]
  end.

Section Model.
Context (conv_defaults : ConvLayerConfig).

(** The [for idx, num_nodes in enumerate(nodes)] loops of
[setup_layers], for the builder [make_layer], from index [idx] on. *)
Fixpoint layer_stages
    (make_layer : tensor -> pyval -> string -> attr -> result tensor)
    (params : gmap string attr) (prefix config : string) (idx : nat)
    (nodes : list pyval) (layers : list tensor) : result (list tensor) :=
  match nodes with
  | [] => Ok layers
  | num_nodes :: rest =>
      input_layer <- TfModels.top layers;;
      layer_config <- getattr params config;;
      layer <- make_layer input_layer num_nodes (prefix +:+ "_" +:+ pretty idx)
                 layer_config;;
      layer_stages make_layer params prefix config (S idx) rest (layers ++ [layer])
  end.

(** [ConvolutionalAutoencoderModel.setup_layers] *)
Definition setup_layers (self : gmap string tensor) (params : gmap string attr)
    : result (tensor * tensor * tensor * tensor) :=
  is_training <- TfModels.self_tensor self "is_training";;
  in_size <- getattr params "in_size";;
  in_size <- as_data in_size;;
  let encode_layers := [placeholder "float" "input" (Some (in_shape in_size))] in
  encode_nodes <- getattr params "encode_nodes";;
  encode_nodes <- as_data encode_nodes;;
  encode_nodes <- py_iter encode_nodes;;
  encode_layers <- layer_stages (TfModels.make_conv_layer conv_defaults is_training)
                     params "encode" "encode_params" 0 encode_nodes encode_layers;;
  encoded <- TfModels.top encode_layers;;
  bottleneck_dim <- getattr params "bottleneck_dim";;
  bottleneck_dim <- as_data bottleneck_dim;;
  bottleneck_params <- getattr params "bottleneck_params";;
  bottleneck <- TfModels.make_conv_layer conv_defaults is_training
                  encoded bottleneck_dim "bottleneck" bottleneck_params;;
  let decode_layers := [bottleneck] in
  decode_nodes <- getattr params "decode_nodes";;
  decode_nodes <- as_data decode_nodes;;
  decode_nodes <- py_iter decode_nodes;;
  decode_layers <- layer_stages (TfModels.make_deconv_layer conv_defaults is_training)
                     params "decode" "decode_params" 0 decode_nodes decode_layers;;
  in_layer <- match encode_layers with
              | t :: _ => Ok t
              | [] => Raise IndexError
              end;;
  let target_layer := placeholder "float" "target" (get_shape in_layer) in
  decoded <- TfModels.top decode_layers;;
  output_params <- getattr params "output_params";;
  output_layer <- TfModels.make_deconv_layer conv_defaults is_training
                    decoded (PInt 1) "output_layer" output_params;;
  let out_layer := fit_to_shape output_layer (get_shape target_layer) in
  let loss := loss_mse target_layer out_layer in
  Ok (in_layer, out_layer, target_layer, loss).
End Model.

End ConvolutionalAutoencoderModel.

(** ** Definitions used to state the further properties *)

Module MoreProps.

(** The attribute names [BaseNetworkParams.__init__] derives itself. *)
Definition derived : list string := ["path"; "meta_filename"; "tb_log_path"].

(** The names the tables of a parameter class list. *)
Definition table_keys (cls : TfModels.params_class) : list string :=
  map fst (TfModels.REQUIRED_ATTRIBUTES cls)
  ++ map fst (TfModels.MODEL_SPECIFIC_ATTRIBUTES cls)
  ++ map fst (TfModels.DATASET_MANAGER_PARAMS cls).

(** The eight attributes of a [ModelParams] are plain data without tuples. *)
Definition plain_tuple_free (v : attr) : bool :=
  match v with
  | Plain v => Json.tuple_free v
  | _ => false
  end.

Definition json_native (self : ModelParams.t) : bool :=
  plain_tuple_free (ModelParams.verb self) && plain_tuple_free (ModelParams.name self)
  && plain_tuple_free (ModelParams.path self) && plain_tuple_free (ModelParams.in_size self)
  && plain_tuple_free (ModelParams.out_size self)
  && plain_tuple_free (ModelParams.max_iter self)
  && plain_tuple_free (ModelParams.batch_size self)
  && plain_tuple_free (ModelParams.num_epoch self).

(** Keyword arguments with a name that no table of the base class lists. *)
Definition colour_kwargs : list (string * attr) :=
  [("batch_size", Plain (PInt 32)); ("colour", Plain (PStr "red"))].

Definition colour_params : gmap string attr :=
  (Props.built TfModels.BaseNetworkParams colour_kwargs).2.

(** The file system of [Props.fresh_fs] with the directory of a model
named [newmodel]. *)
Definition newmodel_fs : Os.filesystem :=
  match TfModels.make_dir "./newmodel" Props.fresh_fs with
  | Ok fs => fs
  | Raise _ => Props.fresh_fs
  end.

(** Base parameters one of whose attributes holds a class, and the
file system after their construction. *)
Definition class_params : Os.filesystem * gmap string attr :=
  Props.built TfModels.BaseNetworkParams [("out_size", Class BaseNetworkCls)].

(** The file system after [Examples.some_params] has been saved on
[Props.fresh_fs]. *)
Definition saved_model_params : Os.filesystem :=
  (ModelParamsSave.save Examples.some_params Props.fresh_fs).1.

(** The default parameters of the convolutional autoencoder. *)
Definition conv_params : Os.filesystem * gmap string attr :=
  Props.built ConvolutionalAutoencoderModel.ConvolutionalAutoencoderParams [].

(** An orchestrator whose number of epochs is the float [2.0], and one
whose number of epochs is [0]. *)
Definition with_num_epoch (v : pyval) : ModelWrangler.t :=
  {| ModelWrangler.params :=
       {| ModelParams.verb := Plain (PBool true);
          ModelParams.name := Plain (PStr "newmodel");
          ModelParams.path := Plain (PStr "./newmodel");
          ModelParams.in_size := Plain (PInt 3);
          ModelParams.out_size := Plain (PInt 3);
          ModelParams.max_iter := Plain (PInt 500);
          ModelParams.batch_size := Plain (PInt 250);
          ModelParams.num_epoch := Plain v |};
     ModelWrangler.tf_mod := Examples.some_network |}.

End MoreProps.

(** ** The convolutional autoencoder, as a term *)

Module GraphProps.

(** An optional stage on the names and the tensor built so far: when
the option is set, the stage is named after all stages before it and
applied to the tensor. *)
Definition optional (option : pyval) (stage : string)
    (make : tensor -> string -> tensor) (st : list string * tensor)
    : list string * tensor :=
  if truthy option
  then (st.1 ++ [stage], make st.2 (str_join "_" (st.1 ++ [stage])))
  else st.

(** A convolution stage: the transform, then batch normalization,
pooling and dropout, each when it is set. *)
Definition conv_stage (is_training : tensor) (c : ConvLayerConfig) (input : tensor)
    (units : pyval) (label : string) : tensor :=
  let st := ([label], conv input units (kernel c) (strides c) label) in
  let st := optional (batchnorm (conv_base c)) "batchnorm"
              (fun t n => layers_batch_normalization t is_training n) st in
  let st := optional (pool_size c) "pooling" (fun t n => pool t (pool_size c) n) st in
  let st := optional (dropout_rate (conv_base c)) "dropout"
              (fun t n => layers_dropout t (dropout_rate (conv_base c)) is_training n)
              st in
  st.2.

(** A deconvolution stage: the transform, then batch normalization,
unpooling with the padding [pad], unstriding and dropout, each when it
is set. *)
Definition deconv_stage (is_training : tensor) (c : ConvLayerConfig) (pad : pyval)
    (input : tensor) (units : pyval) (label : string) : tensor :=
  let st := ([label], deconv input units (kernel c) (strides c) label) in
  let st := optional (batchnorm (conv_base c)) "batchnorm"
              (fun t n => layers_batch_normalization t is_training n) st in
  let st := optional (pool_size c) "unpool" (fun t n => unpool t pad n) st in
  let st := optional (strides c) "unstride" (fun t n => unstride t (strides c) n) st in
  let st := optional (dropout_rate (conv_base c)) "dropout"
              (fun t n => layers_dropout t (dropout_rate (conv_base c)) is_training n)
              st in
  st.2.

(** One stage per entry of [nodes], each on the one before, named
[prefix_idx], [prefix_(idx+1)], ... *)
Fixpoint stage_sequence (stage : tensor -> pyval -> string -> tensor) (prefix : string)
    (idx : nat) (nodes : list pyval) (input : tensor) : tensor :=
  match nodes with
  | [] => input
  | units :: rest =>
      stage_sequence stage prefix (S idx) rest
        (stage input units (prefix +:+ "_" +:+ pretty idx))
  end.

(** The convolutional autoencoder: input placeholder of the shape
[in_shape], convolution stages, bottleneck, deconvolution stages, an
output stage of one filter fitted to the shape of the target
placeholder, mean squared error. *)
Definition conv_autoencoder_graph (is_training : tensor) (in_size : pyval)
    (encode_nodes : list pyval) (encode_params : ConvLayerConfig)
    (bottleneck_dim : pyval) (bottleneck_params : ConvLayerConfig)
    (decode_nodes : list pyval) (decode_params : ConvLayerConfig) (decode_pad : pyval)
    (output_params : ConvLayerConfig) (output_pad : pyval)
    : tensor * tensor * tensor * tensor :=
  let shape := Some (ConvolutionalAutoencoderModel.in_shape in_size) in
  let in_layer := placeholder "float" "input" shape in
  let encoded :=
    stage_sequence (conv_stage is_training encode_params) "encode" 0 encode_nodes
      in_layer in
  let bottleneck :=
    conv_stage is_training bottleneck_params encoded bottleneck_dim "bottleneck" in
  let decoded :=
    stage_sequence (deconv_stage is_training decode_params decode_pad) "decode" 0
      decode_nodes bottleneck in
  let target_layer := placeholder "float" "target" shape in
  let out_layer :=
    fit_to_shape
      (deconv_stage is_training output_params output_pad decoded (PInt 1) "output_layer")
      shape in
  (in_layer, out_layer, target_layer, loss_mse target_layer out_layer).

End GraphProps.

(** ** Inference calls *)

Module InferenceProps.
Import Run.

(** An action that trains nothing and saves nothing: no optimizer step,
no parameter file, no checkpoint, and a fetch only under a feed that
sets the training flag, once, to false. *)
Definition quiet (e : event) : Prop :=
  match e with
  | Session_run (FetchOp _) _ => False
  | Session_run _ feed => RunProps.fed_flags feed = [false]
  | Params_save | Saver_save _ _ => False
  | _ => True
  end.

End InferenceProps.

(** Closes a goal [a = b] between closed terms by evaluation. *)
Ltac by_vm := match goal with |- _ = ?b => vm_cast_no_check (@eq_refl _ b) end.

(** * Properties *)

(** ** Python data: induction and the JSON round trip *)

Lemma pyval_ind' (P : pyval → Prop) :
  P PNone →
  (∀ b, P (PBool b)) →
  (∀ n, P (PInt n)) →
  (∀ x, P (PFloat x)) →
  (∀ s, P (PStr s)) →
  (∀ l, Forall P l → P (PList l)) →
  (∀ l, Forall P l → P (PTuple l)) →
  (∀ d, Forall (λ kv, P kv.2) d → P (PDict d)) →
  ∀ v, P v.
Proof.
  intros HN HB HI HF HS HL HT HD.
  fix IH 1. intros [ | b | n | x | s | l | l | d].
  - exact HN.
  - apply HB.
  - apply HI.
  - apply HF.
  - apply HS.
  - apply HL. induction l as [ | v l IHl]; constructor; [apply IH | exact IHl].
  - apply HT. induction l as [ | v l IHl]; constructor; [apply IH | exact IHl].
  - apply HD. induction d as [ | [k v] d IHd]; constructor; [apply IH | exact IHd].
Qed.

Lemma load_dump (v : pyval) : Json.load (Json.dump v) = Json.tuples_as_lists v.
Proof.
  induction v as [ | | | | | l IH | l IH | d IH] using pyval_ind'; simpl; try reflexivity.
  - f_equal. rewrite map_map.
    induction IH as [ | v l Hv _ IHl]; simpl; [reflexivity | by rewrite Hv, IHl].
  - f_equal. rewrite map_map.
    induction IH as [ | v l Hv _ IHl]; simpl; [reflexivity | by rewrite Hv, IHl].
  - f_equal. rewrite map_map.
    induction IH as [ | [k v] d Hv _ IHd]; simpl in *; [reflexivity | by rewrite Hv, IHd].
Qed.

Lemma tuples_as_lists_tuple_free (v : pyval) :
  Json.tuple_free v = true → Json.tuples_as_lists v = v.
Proof.
  induction v as [ | | | | | l IH | l IH | d IH] using pyval_ind'; simpl; try done.
  - intros Hf. f_equal.
    induction IH as [ | v l Hv _ IHl]; simpl in *; [reflexivity | ].
    apply andb_prop in Hf as [H1 H2]. by rewrite Hv, IHl.
  - intros Hf. f_equal.
    induction IH as [ | [k v] d Hv _ IHd]; simpl in *; [reflexivity | ].
    apply andb_prop in Hf as [H1 H2]. destruct d; by rewrite Hv, ?IHd.
Qed.

(** ** [BaseNetworkParams.save]: the conversion loop *)

Lemma to_plain_idemp (v : attr) : Props.to_plain (Props.to_plain v) = Props.to_plain v.
Proof. by destruct v. Qed.

Lemma convert_step_lookup (d : gmap string attr) (key k : string) :
  (match d !! key with
   | Some (Layer o) => <[key := Plain (PDict (layer_dict o))]> d
   | _ => d
   end) !! k
  = if decide (k = key) then Props.to_plain <$> d !! k else d !! k.
Proof.
  destruct (decide (k = key)) as [-> | Hne].
  - destruct (d !! key) as [[v | o | c] | ] eqn:E; rewrite ?E; try done.
    by rewrite lookup_insert_eq.
  - destruct (d !! key) as [[v | o | c] | ] eqn:E; try done.
    by rewrite lookup_insert_ne.
Qed.

Lemma convert_fold_lookup (keys : list string) (d : gmap string attr) (k : string) :
  foldl (fun d key =>
           match d !! key with
           | Some (Layer o) => <[key := Plain (PDict (layer_dict o))]> d
           | _ => d
           end) d keys !! k
  = if decide (k ∈ keys) then Props.to_plain <$> d !! k else d !! k.
Proof.
  revert d. induction keys as [ | key keys IH]; intros d; cbn [foldl].
  - case_decide as Hin; [by apply elem_of_nil in Hin | done].
  - rewrite IH, convert_step_lookup.
    destruct (decide (k = key)) as [-> | Hne].
    + destruct (decide (key ∈ key :: keys)) as [_ | Hnin];
        [ | by destruct Hnin; apply list_elem_of_here].
      case_decide; [ | done].
      destruct (d !! key) as [v | ]; simpl; [ | done]. by rewrite to_plain_idemp.
    + destruct (decide (k ∈ keys)) as [Hin | Hnin];
        destruct (decide (k ∈ key :: keys)) as [Hin' | Hnin']; try done.
      * by destruct Hnin'; apply list_elem_of_further.
      * by apply elem_of_cons in Hin' as [? | ?].
Qed.

Lemma convert_layer_attrs_fmap (d : gmap string attr) :
  TfModels.convert_layer_attrs d = Props.to_plain <$> d.
Proof.
  apply map_eq. intros k. unfold TfModels.convert_layer_attrs.
  rewrite convert_fold_lookup, lookup_fmap.
  destruct (decide (k ∈ map fst (map_to_list d))) as [Hin | Hnin]; [done | ].
  destruct (d !! k) as [v | ] eqn:E; [ | done].
  exfalso. apply Hnin. apply list_elem_of_fmap. exists (k, v). split; [done | ].
  by apply elem_of_map_to_list.
Qed.

(** ** [json.dump] of an instance dictionary *)

Lemma dump_items_plain (items : list (string * attr)) (js : list (string * Json.json)) :
  TfModels.dump_items items = Ok js →
  ∃ plain : list (string * pyval),
    items = map (λ kv, (kv.1, Plain kv.2)) plain ∧
    js = map (λ kv, (kv.1, Json.dump kv.2)) plain.
Proof.
  revert js. induction items as [ | [k v] items IH]; intros js; simpl.
  - intros [= <-]. by exists [].
  - destruct v as [v | o | c]; simpl; try discriminate.
    destruct (TfModels.dump_items items) as [js' | e]; simpl; [ | discriminate].
    intros [= <-]. destruct (IH js' eq_refl) as (plain & -> & ->).
    by exists ((k, v) :: plain).
Qed.


Lemma dict_lookup_fmap {A B} (f : A → B) (key : string) (d : list (string * A)) :
  dict_lookup key (map (λ kv, (kv.1, f kv.2)) d) = f <$> dict_lookup key d.
Proof.
  unfold dict_lookup. induction d as [ | [k v] d IH]; simpl.
  - by rewrite !lookup_empty.
  - destruct (decide (k = key)) as [-> | Hne].
    + by rewrite !lookup_insert_eq.
    + by rewrite !lookup_insert_ne.
Qed.

(** Reading the members of the written document back. *)
Lemma dump_vars_field (d : gmap string attr) (doc : Json.json) (key : string) (v : pyval) :
  TfModels.dump_vars d = Ok doc →
  d !! key = Some (Plain v) →
  ModelWrangler.field (Json.load doc) key = Some (Json.tuples_as_lists v).
Proof.
  unfold TfModels.dump_vars. intros Hdump Hkey.
  destruct (TfModels.dump_items (map_to_list d)) as [js | e] eqn:E; simpl in Hdump;
    [ | discriminate].
  injection Hdump as <-.
  destruct (dump_items_plain _ _ E) as (plain & Hitems & ->).
  simpl. rewrite map_map. simpl.
  rewrite (dict_lookup_fmap (λ v, Json.load (Json.dump v))).
  assert (Hd : d !! key = Plain <$> dict_lookup key plain).
  { rewrite <- (list_to_map_to_list d), Hitems. apply (dict_lookup_fmap Plain). }
  rewrite Hkey in Hd. destruct (dict_lookup key plain) as [v' | ]; [ | discriminate].
  injection Hd as ->. simpl. by rewrite load_dump.
Qed.

(** ** The file system *)

Lemma write_file_read (p : string) (doc : Json.json) (fs fs' : Os.filesystem) :
  Os.write_file p (Some doc) fs = Ok fs' → Os.read_file fs' p = Ok doc.
Proof.
  unfold Os.write_file, Os.read_file.
  destruct (Os.nodes fs !! p) as [[[ | c] t] | ]; intros [= <-]; simpl;
    by rewrite lookup_insert_eq.
Qed.



Lemma make_dir_existing (p : string) (fs : Os.filesystem) :
  Os.is_dir fs p = true → TfModels.make_dir p fs = Ok fs.
Proof.
  unfold TfModels.make_dir, Os.makedirs, Os.is_dir.
  destruct (String.eqb p ""); [done | ].
  by destruct (Os.nodes fs !! p).
Qed.


Lemma make_dir_lookup (p q : string) (fs fs' : Os.filesystem) :
  TfModels.make_dir p fs = Ok fs' →
  Os.nodes fs' !! q = Os.nodes fs !! q ∨
  (q = p ∧ Os.nodes fs !! q = None ∧ ∃ t, Os.nodes fs' !! q = Some (Os.Dir, t)).
Proof.
  unfold TfModels.make_dir, Os.makedirs.
  destruct (String.eqb p ""); [intros [= <-]; by left | ].
  destruct (Os.nodes fs !! p) as [n | ] eqn:E; intros [= <-]; simpl; [by left | ].
  destruct (decide (q = p)) as [-> | Hne].
  - right. rewrite lookup_insert_eq. eauto.
  - left. by rewrite lookup_insert_ne.
Qed.




(** ** [BaseNetworkParams.save] *)

#[local] Arguments TfModels.params_fname : simpl never.

Lemma save_returns_inv (self self' : gmap string attr) (fs fs' : Os.filesystem) :
  TfModels.save self fs = (self', fs', Ok tt) →
  ∃ path name fs1 fs2 doc,
    self !! "path" = Some (Plain (PStr path)) ∧
    self !! "name" = Some (Plain (PStr name)) ∧
    TfModels.make_dir path fs = Ok fs1 ∧
    self' = Props.to_plain <$> self ∧
    TfModels.dump_vars self' = Ok doc ∧
    Os.write_file (TfModels.params_fname path name) (Some doc) fs2 = Ok fs'.
Proof.
  unfold TfModels.save, getattr.
  destruct (self !! "path") as [[[ | | | | path | | | ] | | ] | ] eqn:Hp; simpl;
    try by intros [=].
  destruct (TfModels.make_dir path fs) as [fs1 | e] eqn:Hm; [ | by intros [=]].
  destruct (self !! "name") as [[[ | | | | name | | | ] | | ] | ] eqn:Hn; simpl;
    try by intros [=].
  destruct (Os.write_file (TfModels.params_fname path name) None fs1) as [fs2 | e] eqn:Hw;
    [ | by intros [=]].
  destruct (TfModels.dump_vars (TfModels.convert_layer_attrs self)) as [doc | e] eqn:Hd;
    [ | by intros [=]].
  destruct (Os.write_file (TfModels.params_fname path name) (Some doc) fs2)
    as [fs3 | e] eqn:Hw'; [ | by intros [=]].
  intros [= <- <-]. exists path, name, fs1, fs2, doc.
  rewrite <- convert_layer_attrs_fmap. done.
Qed.

(** C2 (as amended).  When [p.save()] returns, the document it has
    written is read back by the first statement of [load], and for every
    attribute of [p] the deserialized mapping holds: the value of a
    plain-data attribute with each tuple replaced by the list of its
    elements, hence exactly the value when it contains no tuple; and, for
    an attribute that held a layer configuration, the plain mapping of
    its attributes. *)
Theorem save_load_roundtrip (self self' : gmap string attr) (fs fs' : Os.filesystem) :
  TfModels.save self fs = (self', fs', Ok tt) →
  ∃ path name params,
    self !! "path" = Some (Plain (PStr path)) ∧
    self !! "name" = Some (Plain (PStr name)) ∧
    ModelWrangler.load_params (TfModels.params_fname path name) fs' = Ok params ∧
    (∀ key v, self !! key = Some (Plain v) →
       ModelWrangler.field params key = Some (Json.tuples_as_lists v)) ∧
    (∀ key v, self !! key = Some (Plain v) → Json.tuple_free v = true →
       ModelWrangler.field params key = Some v) ∧
    (∀ key o, self !! key = Some (Layer o) →
       ModelWrangler.field params key
       = Some (Json.tuples_as_lists (PDict (layer_dict o)))).
Proof.
  intros Hsave.
  destruct (save_returns_inv _ _ _ _ Hsave)
    as (path & name & fs1 & fs2 & doc & Hp & Hn & _ & -> & Hd & Hw).
  exists path, name, (Json.load doc).
  assert (Hplain : ∀ key v, self !! key = Some (Plain v) →
            ModelWrangler.field (Json.load doc) key = Some (Json.tuples_as_lists v)).
  { intros key v Hk. apply (dump_vars_field _ _ _ _ Hd).
    by rewrite lookup_fmap, Hk. }
  repeat split; try done.
  - unfold ModelWrangler.load_params. by rewrite (write_file_read _ _ _ _ Hw).
  - intros key v Hk Hf. rewrite (Hplain key v Hk).
    by rewrite tuples_as_lists_tuple_free.
  - intros key o Hk. apply (dump_vars_field _ _ _ _ Hd).
    by rewrite lookup_fmap, Hk.
Qed.

(** C10.  When [save] returns, every attribute that held a layer
    configuration holds the plain dict of its attributes, every other
    attribute is as before, and so the instance differs from its state
    before the call as soon as it held one layer configuration. *)
Theorem save_converts_layer_attributes
    (self self' : gmap string attr) (fs fs' : Os.filesystem) :
  TfModels.save self fs = (self', fs', Ok tt) →
  (∀ key o, self !! key = Some (Layer o) →
     self' !! key = Some (Plain (PDict (layer_dict o)))) ∧
  (∀ key, TfModels.is_layer_config <$> self !! key ≠ Some true →
     self' !! key = self !! key) ∧
  ((∃ key o, self !! key = Some (Layer o)) → self' ≠ self).
Proof.
  intros Hsave.
  destruct (save_returns_inv _ _ _ _ Hsave)
    as (path & name & fs1 & fs2 & doc & _ & _ & _ & -> & _ & _).
  repeat split.
  - intros key o Hk. by rewrite lookup_fmap, Hk.
  - intros key Hk. rewrite lookup_fmap.
    destruct (self !! key) as [[v | o | c] | ]; simpl in *; congruence.
  - intros (key & o & Hk) Heq.
    assert (H : (Props.to_plain <$> self) !! key = Some (Layer o)) by by rewrite Heq.
    rewrite lookup_fmap, Hk in H. discriminate.
Qed.

Lemma save_load_roundtrip_witness :
  ∃ path name params,
    Props.autoenc_params.2 !! "path" = Some (Plain (PStr path)) ∧
    Props.autoenc_params.2 !! "name" = Some (Plain (PStr name)) ∧
    ModelWrangler.load_params (TfModels.params_fname path name)
      (Props.saved Props.autoenc_params).1.2 = Ok params ∧
    (∀ key v, Props.autoenc_params.2 !! key = Some (Plain v) →
       ModelWrangler.field params key = Some (Json.tuples_as_lists v)) ∧
    (∀ key v, Props.autoenc_params.2 !! key = Some (Plain v) →
       Json.tuple_free v = true → ModelWrangler.field params key = Some v) ∧
    (∀ key o, Props.autoenc_params.2 !! key = Some (Layer o) →
       ModelWrangler.field params key
       = Some (Json.tuples_as_lists (PDict (layer_dict o)))).
Proof.
  apply (save_load_roundtrip Props.autoenc_params.2
           (Props.saved Props.autoenc_params).1.1 Props.autoenc_params.1).
  vm_compute. reflexivity.
Defined.

(** C2 as stated does not hold: a plain-data attribute that is a tuple
    is read back as a list, which is a different value. *)
Lemma tuple_field_read_back_as_list :
  TfModels.save Props.tuple_params.2 Props.tuple_params.1
  = ((Props.saved Props.tuple_params).1.1, (Props.saved Props.tuple_params).1.2, Ok tt) ∧
  Props.tuple_params.2 !! "path" = Some (Plain (PStr "./newmodel")) ∧
  Props.tuple_params.2 !! "name" = Some (Plain (PStr "newmodel")) ∧
  Props.tuple_params.2 !! "in_size" = Some (Plain (PTuple [PInt 28; PInt 28])) ∧
  (∃ params,
     ModelWrangler.load_params (TfModels.params_fname "./newmodel" "newmodel")
       (Props.saved Props.tuple_params).1.2 = Ok params ∧
     ModelWrangler.field params "in_size" = Some (PList [PInt 28; PInt 28])) ∧
  PList [PInt 28; PInt 28] ≠ PTuple [PInt 28; PInt 28].
Proof.
  split; [vm_compute; reflexivity | ].
  split; [vm_compute; reflexivity | ].
  split; [vm_compute; reflexivity | ].
  split; [vm_compute; reflexivity | ].
  split; [ | discriminate].
  eexists. split; vm_compute; reflexivity.
Qed.

Lemma save_converts_layer_attributes_witness :
  (∀ key o, Props.autoenc_params.2 !! key = Some (Layer o) →
     (Props.saved Props.autoenc_params).1.1 !! key
     = Some (Plain (PDict (layer_dict o)))) ∧
  (∀ key, TfModels.is_layer_config <$> Props.autoenc_params.2 !! key ≠ Some true →
     (Props.saved Props.autoenc_params).1.1 !! key = Props.autoenc_params.2 !! key) ∧
  ((∃ key o, Props.autoenc_params.2 !! key = Some (Layer o)) →
   (Props.saved Props.autoenc_params).1.1 ≠ Props.autoenc_params.2).
Proof.
  apply (save_converts_layer_attributes Props.autoenc_params.2
           (Props.saved Props.autoenc_params).1.1 Props.autoenc_params.1
           (Props.saved Props.autoenc_params).1.2).
  vm_compute. reflexivity.
Defined.

(** The default dense-autoencoder parameters hold four layer
    configurations, so [save] changes them. *)
Lemma autoenc_params_changed_by_save :
  Props.autoenc_params.2 !! "encode_params"
  = Some (Layer (LayerObj {| activation := PStr "relu"; act_reg := PNone;
                             bias := PBool true; batchnorm := PBool true;
                             dropout_rate := PFloat (1 # 10) |})) ∧
  (Props.saved Props.autoenc_params).1.1 !! "encode_params"
  = Some (Plain (PDict [("activation", PStr "relu"); ("act_reg", PNone);
                        ("bias", PBool true); ("batchnorm", PBool true);
                        ("dropout_rate", PFloat (1 # 10))])).
Proof. split; vm_compute; reflexivity. Qed.

(** ** Construction of parameter objects and the artifact directories *)





(** ** The layer builders: order of the stages *)
















(** The stacks of three configurations, evaluated. *)
Example dense_stack_without_dropout :
  (let '(_, stack) :=
     match TfModels.make_dense_layer_stacks Props.some_layer_defaults
             (placeholder "bool" "is_training" None)
             (placeholder "float" "input" (Some [PNone; PInt 10])) (PInt 3) "bottleneck"
             (Plain (PDict [("dropout_rate", PNone)])) with
     | Ok st => st
     | Raise _ => ([], [])
     end in
   map stage_of stack) = [Some Transform; Some BatchNorm].
Proof. reflexivity. Qed.

Example conv_stack_default :
  (let '(names, stack) :=
     match TfModels.make_conv_layer_stacks Props.some_conv_defaults
             (placeholder "bool" "is_training" None)
             (placeholder "float" "input" (Some [PNone; PInt 40; PInt 1])) (PInt 10)
             "encode_0"
             (Plain (PDict [("dropout_rate", PFloat (1 # 10)); ("kernel", PInt 5);
                            ("strides", PInt 1); ("pool_size", PInt 2)])) with
     | Ok st => st
     | Raise _ => ([], [])
     end in
   (names, map stage_of stack))
  = (["encode_0"; "batchnorm"; "pooling"; "dropout"],
     [Some Transform; Some BatchNorm; Some Pooling; Some Dropout]).
Proof. reflexivity. Qed.

Example deconv_stack_default :
  (let '(names, stack) :=
     match TfModels.make_deconv_layer_stacks Props.some_conv_defaults
             (placeholder "bool" "is_training" None)
             (placeholder "float" "input" (Some [PNone; PInt 40; PInt 1])) (PInt 10)
             "decode_0"
             (Plain (PDict [("dropout_rate", PNone); ("kernel", PInt 5);
                            ("strides", PInt 1); ("pool_size", PInt 0)])) with
     | Ok st => st
     | Raise _ => ([], [])
     end in
   (names, map stage_of stack))
  = (["decode_0"; "batchnorm"; "unstride"],
     [Some Transform; Some BatchNorm; Some Unstride]).
Proof. reflexivity. Qed.

(** ** The baseline network *)

(** C6.  [BaseNetwork.setup_layers] does not build the baseline the
    claim describes.  On the instance under construction, which holds
    [is_training] only, it raises, because the dense projection is
    applied to [self.input], an attribute that is assigned from the
    result of this very call; so constructing a [BaseNetwork] raises
    too.  And on an instance that does hold an [input], the projection
    is applied to that tensor, and the loss is computed between the
    target and the new input placeholder, not the output of the
    projection. *)
Theorem baseline_setup_layers_diverges :
  (∀ (is_training : tensor) (params : gmap string attr),
     ∃ e, TfModels.setup_layers {["is_training" := is_training]} params = Raise e) ∧
  (∀ (is_training : tensor) (params : gmap string attr) (in_size : pyval),
     params !! "in_size" = Some (Plain in_size) →
     TfModels.setup_layers {["is_training" := is_training]} params
     = Raise (AttributeError "input")) ∧
  (∀ params : gmap string attr,
     ∃ e, TfModels.BaseNetwork_init TfModels.setup_layers params = Raise e) ∧
  (∀ (self : gmap string tensor) (params : gmap string attr)
     (in_layer out_layer target_layer loss : tensor),
     TfModels.setup_layers self params = Ok (in_layer, out_layer, target_layer, loss) →
     loss = loss_sigmoid_ce target_layer in_layer ∧
     loss ≠ loss_sigmoid_ce target_layer out_layer ∧
     stage_input out_layer = self !! "input").
Proof.
  assert (Hfresh : ∀ (is_training : tensor) (params : gmap string attr),
            ∃ e, TfModels.setup_layers {["is_training" := is_training]} params = Raise e).
  { intros is_training params. unfold TfModels.setup_layers, getattr.
    destruct (params !! "in_size") as [[v | o | c] | ]; simpl; by eexists. }
  split; [exact Hfresh | ]. split; [ | split].
  - intros is_training params in_size Hin.
    unfold TfModels.setup_layers, getattr. by rewrite Hin.
  - intros params. unfold TfModels.BaseNetwork_init.
    destruct (Hfresh (placeholder "bool" "is_training" None) params) as [e ->].
    by eexists.
  - intros self params in_layer out_layer target_layer loss.
    unfold TfModels.setup_layers, getattr, TfModels.self_tensor.
    destruct (params !! "in_size") as [[in_size | | ] | ]; simpl; try discriminate.
    destruct (self !! "input") as [self_input | ] eqn:Hself; simpl; [ | discriminate].
    destruct (params !! "out_size") as [[out_size | | ] | ]; simpl; try discriminate.
    intros [= <- <- <- <-]. repeat split; done.
Qed.

(** ** The dense autoencoder *)

Lemma make_dense_layer_stage (layer_defaults : LayerConfig) (is_training input : tensor)
    (units : pyval) (label : string) (layer_config : attr) (c : LayerConfig) :
  TfModels.dense_config layer_defaults layer_config = Ok c →
  TfModels.make_dense_layer layer_defaults is_training input units label layer_config
  = Ok (Props.dense_stage is_training c input units label).
Proof.
  intros Hc.
  unfold TfModels.make_dense_layer, TfModels.make_dense_layer_stacks,
    TfModels.add_stage, Props.dense_stage.
  rewrite Hc. cbn [Py.bind].
  destruct (truthy (batchnorm c)), (truthy (dropout_rate c)); reflexivity.
Qed.

Lemma dense_stages_sequence (layer_defaults : LayerConfig) (is_training : tensor)
    (params : gmap string attr) (prefix config : string) (layer_config : attr)
    (c : LayerConfig) (nodes : list pyval) :
  params !! config = Some layer_config →
  TfModels.dense_config layer_defaults layer_config = Ok c →
  ∀ (idx : nat) (layers : list tensor) (t : tensor),
    last layers = Some t →
    ∃ layers',
      DenseAutoencoderModel.dense_stages layer_defaults is_training params prefix config
        idx nodes layers = Ok layers' ∧
      last layers' = Some (Props.dense_stage_sequence is_training c prefix idx nodes t) ∧
      head layers' = head layers ∧
      length layers' = (length layers + length nodes)%nat.
Proof.
  intros Hcfg Hc. induction nodes as [ | units nodes IH]; intros idx layers t Hlast.
  - exists layers. simpl. by rewrite Nat.add_0_r.
  - cbn [DenseAutoencoderModel.dense_stages Props.dense_stage_sequence].
    unfold TfModels.top, getattr. rewrite Hlast, Hcfg. cbn [Py.bind].
    rewrite (make_dense_layer_stage _ _ _ _ _ _ _ Hc). cbn [Py.bind].
    destruct (IH (S idx)
                (layers ++ [Props.dense_stage is_training c t units
                              (prefix +:+ "_" +:+ pretty idx)])
                (Props.dense_stage is_training c t units (prefix +:+ "_" +:+ pretty idx)))
      as (layers' & -> & Hl & Hh & Hn); [apply last_snoc | ].
    exists layers'. split; [done | ]. split; [done | ]. split.
    + rewrite Hh. destruct layers; [discriminate | done].
    + rewrite Hn, length_app. simpl. lia.
Qed.

(** The model class itself assembles the dense autoencoder of the
    specification, on a parameter object that holds the sizes and the
    layer configurations. *)
Theorem dense_autoencoder_setup_layers (layer_defaults : LayerConfig)
    (self : gmap string tensor) (params : gmap string attr) (is_training : tensor)
    (in_size encode_value bottleneck_dim decode_value : pyval)
    (encode_nodes decode_nodes : list pyval)
    (encode_cfg bottleneck_cfg decode_cfg output_cfg : attr)
    (encode_params bottleneck_params decode_params output_params : LayerConfig) :
  self !! "is_training" = Some is_training →
  params !! "in_size" = Some (Plain in_size) →
  params !! "encode_nodes" = Some (Plain encode_value) →
  py_iter encode_value = Ok encode_nodes →
  params !! "encode_params" = Some encode_cfg →
  TfModels.dense_config layer_defaults encode_cfg = Ok encode_params →
  params !! "bottleneck_dim" = Some (Plain bottleneck_dim) →
  params !! "bottleneck_params" = Some bottleneck_cfg →
  TfModels.dense_config layer_defaults bottleneck_cfg = Ok bottleneck_params →
  params !! "decode_nodes" = Some (Plain decode_value) →
  py_iter decode_value = Ok decode_nodes →
  params !! "decode_params" = Some decode_cfg →
  TfModels.dense_config layer_defaults decode_cfg = Ok decode_params →
  params !! "output_params" = Some output_cfg →
  TfModels.dense_config layer_defaults output_cfg = Ok output_params →
  DenseAutoencoderModel.setup_layers layer_defaults self params
  = Ok (Props.dense_autoencoder_graph is_training in_size encode_nodes encode_params
          bottleneck_dim bottleneck_params decode_nodes decode_params output_params).
Proof.
  intros Ht Hin Hen Heni Hep Hec Hbd Hbp Hbc Hdn Hdni Hdp Hdc Hop Hoc.
  unfold DenseAutoencoderModel.setup_layers, TfModels.self_tensor, getattr.
  rewrite Ht, Hin, Hen. cbn [Py.bind as_data]. rewrite Heni. cbn [Py.bind].
  destruct (dense_stages_sequence layer_defaults is_training params "encode"
              "encode_params" encode_cfg encode_params encode_nodes Hep Hec 0%nat
              [placeholder "float" "input" (Some [PNone; in_size])]
              (placeholder "float" "input" (Some [PNone; in_size])) eq_refl)
    as (enc & -> & Hel & Heh & _).
  cbn [Py.bind]. unfold TfModels.top at 1. rewrite Hel. cbn [Py.bind].
  rewrite Hbd, Hbp. cbn [Py.bind as_data].
  rewrite (make_dense_layer_stage _ _ _ _ _ _ _ Hbc). cbn [Py.bind].
  rewrite Hdn. cbn [Py.bind as_data]. rewrite Hdni. cbn [Py.bind].
  match goal with
  | |- context [DenseAutoencoderModel.dense_stages _ _ _ _ _ _ _ [?b]] =>
      destruct (dense_stages_sequence layer_defaults is_training params "decode"
                  "decode_params" decode_cfg decode_params decode_nodes Hdp Hdc 0%nat
                  [b] b eq_refl) as (dec & -> & Hdl & _ & _)
  end.
  cbn [Py.bind].
  destruct enc as [ | in_layer enc]; [discriminate | ].
  simpl in Heh. injection Heh as ->. cbn [Py.bind].
  unfold TfModels.top. rewrite Hdl. cbn [Py.bind]. rewrite Hop. cbn [Py.bind].
  rewrite (make_dense_layer_stage _ _ _ _ _ _ _ Hoc). cbn [Py.bind].
  reflexivity.
Qed.

(** ** The dense-autoencoder facade *)





(** ** Arrays: the mean of the squares along the first axis *)






(** ** Runs: computations that perform a fixed sequence of actions *)

Section Linear.
Import Run RunProps.

Lemma world_eq (w1 w2 : world) :
  pending w1 = pending w2 → trace w1 = trace w2 → w1 = w2.
Proof. destruct w1, w2; simpl; by intros -> ->. Qed.

Lemma bind_emit_run {B} (e : event) (k : unit → M B) (w : world) :
  bind (emit e) k w
  = match pending w with
    | Some O => (Raise KeyboardInterrupt, {| pending := None; trace := trace w |})
    | Some (S j) => k tt {| pending := Some j; trace := trace w ++ [e] |}
    | None => k tt {| pending := None; trace := trace w ++ [e] |}
    end.
Proof. by destruct w as [[[ | j] | ] tr]. Qed.

Lemma linear_ret {A} (a : A) : linear (ret a) [].
Proof.
  intros [[k | ] tr]; unfold fits, after, ret; simpl.
  - exists a. f_equal. apply world_eq; simpl; [f_equal; lia | by rewrite app_nil_r].
  - exists a. f_equal. apply world_eq; simpl; [done | by rewrite app_nil_r].
Qed.

Lemma linear_emit (e : event) : linear (emit e) [e].
Proof.
  intros [[[ | k] | ] tr]; unfold fits, after, interrupted, emit; simpl.
  - exists []. split; [constructor | ]. f_equal.
    apply world_eq; simpl; [done | by rewrite !app_nil_r].
  - exists tt. f_equal. apply world_eq; simpl; [f_equal; lia | done].
  - by exists tt.
Qed.

Lemma linear_bind {A B} (m : M A) (k : A → M B) (f1 f2 : list event) :
  linear m f1 → (∀ a, linear (k a) f2) → linear (bind m k) (f1 ++ f2).
Proof.
  intros H1 H2 w. specialize (H1 w). unfold bind.
  destruct w as [[j | ] tr]; unfold fits, after, interrupted in *; simpl in *.
  - rewrite length_app.
    destruct (Nat.leb_spec (length f1) j) as [Hle1 | Hgt1].
    + destruct H1 as [a ->].
      specialize (H2 a {| pending := Some (j - length f1)%nat; trace := tr ++ f1 |}).
      unfold fits, after, interrupted in H2. simpl in H2.
      destruct (Nat.leb_spec (length f2) (j - length f1)) as [Hle2 | Hgt2].
      * destruct (Nat.leb_spec (length f1 + length f2) j); [ | lia].
        destruct H2 as [b ->]. exists b. f_equal.
        apply world_eq; simpl; [f_equal; lia | by rewrite app_assoc].
      * destruct (Nat.leb_spec (length f1 + length f2) j); [lia | ].
        destruct H2 as (c & Hc & ->). exists c. split; [done | ]. f_equal.
        apply world_eq; simpl; [done | ].
        rewrite take_app_ge by lia. by rewrite <- !app_assoc.
    + destruct (Nat.leb_spec (length f1 + length f2) j); [lia | ].
      destruct H1 as (c & Hc & ->). exists c. split; [done | ]. f_equal.
      apply world_eq; simpl; [done | ].
      by rewrite take_app_le by lia.
  - destruct H1 as [a ->]. specialize (H2 a {| pending := None; trace := tr ++ f1 |}).
    unfold fits, after in H2. simpl in H2. destruct H2 as [b ->].
    exists b. f_equal. apply world_eq; simpl; [done | by rewrite app_assoc].
Qed.

Lemma linear_with_session {A} (body : M A) (f : list event) :
  linear body f → linear (with_session body) (Session_enter :: f ++ [Session_exit]).
Proof.
  intros Hb w. unfold with_session, emit.
  destruct w as [[[ | j] | ] tr]; unfold fits, after, interrupted in *; simpl.
  - exists []. split; [constructor | ]. f_equal.
    apply world_eq; simpl; [done | by rewrite !app_nil_r].
  - specialize (Hb {| pending := Some j; trace := tr ++ [Session_enter] |}).
    unfold fits, after, interrupted in Hb. simpl in Hb.
    rewrite length_app. simpl.
    destruct (Nat.leb_spec (length f) j) as [Hle | Hgt].
    + destruct Hb as [a ->]. simpl.
      destruct (j - length f)%nat as [ | r] eqn:Hr.
      * destruct (Nat.leb_spec (length f + 1) j); [lia | ].
        exists []. split; [constructor | ]. f_equal.
        apply world_eq; simpl; [done | ].
        rewrite take_app_ge by lia. replace (j - length f)%nat with 0%nat by lia.
        rewrite take_0, !app_nil_r. by rewrite <- app_assoc.
      * destruct (Nat.leb_spec (length f + 1) j); [ | lia].
        exists a. f_equal. apply world_eq; simpl; [f_equal; lia | ].
        by rewrite <- !app_assoc.
    + destruct (Nat.leb_spec (length f + 1) j); [lia | ].
      destruct Hb as (c & Hc & ->). simpl.
      exists (c ++ [Session_exit]). split.
      * apply Forall_app. split; [done | by repeat constructor].
      * f_equal. apply world_eq; simpl; [done | ].
        rewrite take_app_le by lia. by rewrite <- !app_assoc.
  - specialize (Hb {| pending := None; trace := tr ++ [Session_enter] |}).
    unfold fits, after in Hb. simpl in Hb. destruct Hb as [a ->]. simpl.
    exists a. f_equal. apply world_eq; simpl; [done | ].
    by rewrite <- !app_assoc.
Qed.

End Linear.

(** ** The training run of [ModelWrangler] *)

Section Training.
Import Run RunProps.
Context (balanced_batches : dataset → pyval → attr → list (ndarray * ndarray)).
Context (get_holdout_samples : dataset → ndarray * ndarray).
Context (tensor_value : list event → tensor → feed_dict → ndarray).
Context (self : ModelWrangler.t).

Lemma linear_session_run_tensor (t : tensor) (feed : feed_dict) :
  linear (ModelWrangler.session_run_tensor tensor_value t feed)
    [Session_run (FetchTensor t) feed].
Proof.
  intros w. pose proof (linear_emit (Session_run (FetchTensor t) feed) w) as He.
  unfold ModelWrangler.session_run_tensor.
  destruct (fits w [Session_run (FetchTensor t) feed]).
  - destruct He as [[] ->]. by eexists.
  - destruct He as (c & Hc & ->). by exists c.
Qed.

Lemma linear_score (X y : ndarray) :
  linear (ModelWrangler.score tensor_value self X y None)
    [Session_enter;
     Session_run (FetchTensor (TfModels.loss (ModelWrangler.tf_mod self))) (fed self X y false);
     Session_exit].
Proof.
  unfold ModelWrangler.score.
  apply (linear_with_session _ [_]), linear_session_run_tensor.
Qed.

Lemma linear_save (epoch : Z) :
  linear (ModelWrangler.save self epoch) (checkpoint_events self epoch).
Proof.
  unfold ModelWrangler.save, checkpoint_events, ModelWrangler.log.
  apply (linear_bind _ _ [_] _); [apply linear_emit | intros _].
  apply (linear_bind _ _ [_] _); [apply linear_emit | intros _].
  apply (linear_with_session _ [_]), linear_emit.
Qed.

Lemma counter_multiple (c : nat) :
  ((Z.of_nat c + 1) mod 100 =? 0)%Z = (S c mod 100 =? 0)%nat.
Proof.
  replace (Z.of_nat c + 1)%Z with (Z.of_nat (S c)) by lia.
  change 100%Z with (Z.of_nat 100). rewrite <- Nat2Z.inj_mod.
  destruct (Nat.eqb_spec (S c mod 100) 0) as [-> | Hne]; [done | ].
  apply Z.eqb_neq. lia.
Qed.

Lemma linear_batch_loop (holdout : ndarray * ndarray)
    (batches : list (ndarray * ndarray)) (c : nat) :
  linear (ModelWrangler.batch_loop tensor_value self holdout.1 holdout.2
            (Z.of_nat c) batches)
    (concat (imap (λ i batch, batch_events self holdout (S (c + i)) batch) batches)).
Proof.
  revert c. induction batches as [ | [X_batch y_batch] batches IH]; intros c.
  - apply linear_ret.
  - cbn [ModelWrangler.batch_loop]. rewrite imap_cons. cbn [concat].
    unfold batch_events at 1. rewrite Nat.add_0_r, counter_multiple.
    apply (linear_bind _ _ [_] (_ ++ _)); [apply linear_emit | intros _].
    apply linear_bind.
    + destruct (S c mod 100 =? 0)%nat; [ | apply linear_ret].
      unfold holdout_events, ModelWrangler.log.
      apply (linear_bind _ _ [_] _); [apply linear_emit | intros _].
      apply (linear_bind _ _ [_; _; _] [_]); [apply linear_score | intros _].
      apply linear_emit.
    + intros _. replace (Z.of_nat c + 1)%Z with (Z.of_nat (S c)) by lia.
      rewrite (imap_ext _ (λ i batch, batch_events self holdout (S (S c + i)) batch));
        [apply IH | ].
      intros i x _. simpl. do 2 f_equal. lia.
Qed.

Lemma linear_run_epoch (dataset : Run.dataset) (pos_classes : pyval) :
  linear (ModelWrangler._run_epoch balanced_batches get_holdout_samples tensor_value
            self dataset pos_classes)
    ([Balanced_batches pos_classes (ModelParams.batch_size (ModelWrangler.params self));
      Get_holdout_samples]
     ++ concat (imap (λ i batch, batch_events self (get_holdout_samples dataset) (S i) batch)
                  (balanced_batches dataset pos_classes
                     (ModelParams.batch_size (ModelWrangler.params self))))).
Proof.
  unfold ModelWrangler._run_epoch.
  apply (linear_bind _ _ [_] (_ :: _)); [apply linear_emit | intros _].
  apply (linear_bind _ _ [_] _); [apply linear_emit | intros _].
  pose proof (linear_batch_loop (get_holdout_samples dataset)
                (balanced_batches dataset pos_classes
                   (ModelParams.batch_size (ModelWrangler.params self))) 0) as H.
  destruct (get_holdout_samples dataset) as [X_holdout y_holdout]. exact H.
Qed.

Lemma linear_epoch_loop (dataset : Run.dataset) (pos_classes : pyval) (epochs : list Z) :
  linear (ModelWrangler.epoch_loop balanced_batches get_holdout_samples tensor_value
            self dataset pos_classes epochs)
    (concat (map (epoch_events self
                    (balanced_batches dataset pos_classes
                       (ModelParams.batch_size (ModelWrangler.params self)))
                    (get_holdout_samples dataset) pos_classes) epochs)).
Proof.
  induction epochs as [ | epoch epochs IH].
  - apply linear_ret.
  - cbn [ModelWrangler.epoch_loop].
    set (batches := balanced_batches dataset pos_classes
                      (ModelParams.batch_size (ModelWrangler.params self))) in *.
    set (holdout := get_holdout_samples dataset) in *.
    assert (Heq : concat (map (epoch_events self batches holdout pos_classes)
                            (epoch :: epochs))
                  = [Log "Starting Epoch %d"]
                    ++ (([Balanced_batches pos_classes
                            (ModelParams.batch_size (ModelWrangler.params self));
                          Get_holdout_samples]
                         ++ concat (imap (λ i batch, batch_events self holdout (S i) batch)
                                      batches))
                        ++ (checkpoint_events self epoch
                            ++ concat (map (epoch_events self batches holdout pos_classes)
                                         epochs)))).
    { cbn [map concat]. unfold epoch_events at 1. simpl. by rewrite <- !app_assoc. }
    rewrite Heq.
    apply linear_bind; [apply linear_emit | intros _].
    apply linear_bind; [apply linear_run_epoch | intros _].
    apply linear_bind; [apply linear_save | intros _]. exact IH.
Qed.

Lemma linear_train_body (dataset : Run.dataset) (pos_classes : pyval) (n : Z) :
  ModelParams.num_epoch (ModelWrangler.params self) = Plain (PInt n) →
  linear
    (with_session
       (bind (lift (ModelWrangler.py_range
                      (ModelParams.num_epoch (ModelWrangler.params self))))
          (λ epochs,
             ModelWrangler.epoch_loop balanced_batches get_holdout_samples tensor_value
               self dataset pos_classes epochs)))
    (Session_enter ::
     concat (map (epoch_events self
                    (balanced_batches dataset pos_classes
                       (ModelParams.batch_size (ModelWrangler.params self)))
                    (get_holdout_samples dataset) pos_classes) (range n))
     ++ [Session_exit]).
Proof.
  intros ->. apply linear_with_session.
  change (linear (ModelWrangler.epoch_loop balanced_batches get_holdout_samples
                    tensor_value self dataset pos_classes (range n))
            (concat (map (epoch_events self
                            (balanced_batches dataset pos_classes
                               (ModelParams.batch_size (ModelWrangler.params self)))
                            (get_holdout_samples dataset) pos_classes) (range n)))).
  apply linear_epoch_loop.
Qed.

(** *** What the trace of a run contains *)










(** *** [train] *)

Lemma train_cases (input_x target_y : ndarray) (pos_classes : pyval) (n : Z) (w : world) :
  ModelParams.num_epoch (ModelWrangler.params self) = Plain (PInt n) →
  let dataset := {| Run.input_x := input_x; Run.target_y := target_y;
                    categorical := true; holdout_prop := 1 # 10 |} in
  let evs := train_events self dataset
               (balanced_batches dataset pos_classes
                  (ModelParams.batch_size (ModelWrangler.params self)))
               (get_holdout_samples dataset) pos_classes n in
  let run := ModelWrangler.train balanced_batches get_holdout_samples tensor_value
               self input_x target_y pos_classes w in
  (pending w = Some 0%nat →
   run = (Raise KeyboardInterrupt, {| pending := None; trace := trace w |})) ∧
  (fits w evs = true → run = (Ok tt, after w evs)) ∧
  (∀ k, pending w = Some k → (0 < k)%nat → (k < length evs)%nat →
     ∃ closing,
       Forall (λ e, e = Session_exit) closing ∧
       run = (Ok tt, {| pending := None;
                        trace := trace w ++ take k evs ++ closing
                                   ++ [Print "Force-exiting training."] |})).
Proof.
  intros Hn. cbn zeta.
  set (dataset := {| Run.input_x := input_x; Run.target_y := target_y;
                     categorical := true; holdout_prop := 1 # 10 |}).
  pose proof (linear_train_body dataset pos_classes n Hn) as Hbody.
  unfold train_events. cbn [app].
  set (F := Session_enter :: _ ++ [Session_exit]) in *. clearbody F.
  unfold ModelWrangler.train. fold dataset. rewrite bind_emit_run.
  unfold try_except_KeyboardInterrupt.
  destruct w as [[[ | j] | ] tr]; unfold fits, after; cbn [pending trace fmap option_fmap
                                                             option_map length].
  - repeat split; try done. intros k [= <-]. lia.
  - specialize (Hbody {| pending := Some j; trace := tr ++ [DatasetManager_new dataset] |}).
    unfold fits, after, interrupted in Hbody. cbn [pending trace] in Hbody.
    change (S (length F) <=? S j)%nat with (length F <=? j)%nat.
    destruct (Nat.leb_spec (length F) j) as [Hle | Hgt].
    + destruct Hbody as [[] ->]. split; [done | ]. split.
      * intros _. f_equal. apply world_eq; simpl; [done | by rewrite <- app_assoc].
      * intros k [= <-] _ Hk. simpl in Hk. lia.
    + destruct Hbody as (c & Hc & ->). split; [done | ]. split; [done | ].
      intros k [= <-] _ _. exists c. split; [done | ].
      unfold emit. simpl. f_equal. apply world_eq; simpl; [done | ].
      by rewrite <- !app_assoc.
  - specialize (Hbody {| pending := None; trace := tr ++ [DatasetManager_new dataset] |}).
    unfold fits, after in Hbody. cbn [pending trace] in Hbody. destruct Hbody as [[] ->].
    split; [done | ]. split; [ | done].
    intros _. f_equal. apply world_eq; simpl; [done | by rewrite <- app_assoc].
Qed.



(** An interrupt raised while the dataset provider is being built is
    not caught: that statement stands before the [try]. *)
Lemma interrupt_before_try_propagates (input_x target_y : ndarray) (pos_classes : pyval)
    (tr : list event) :
  ModelWrangler.train balanced_batches get_holdout_samples tensor_value
    self input_x target_y pos_classes {| pending := Some 0%nat; trace := tr |}
  = (Raise KeyboardInterrupt, {| pending := None; trace := tr |}).
Proof. reflexivity. Qed.

(** *** [feature_importance] *)


End Training.

(** ** The training run on a concrete orchestrator *)




(** The same run interrupted in the first epoch: the session is
    released, and the handler's message ends the trace. *)
Example interrupted_run_trace :
  (ModelWrangler.train Examples.two_batches Examples.whole_holdout Examples.constant_engine
     Examples.some_wrangler Examples.some_rows Examples.some_rows (PList [PInt 1])
     {| Run.pending := Some 3%nat; Run.trace := [] |}).1 = Ok tt ∧
  map (λ e, match e with
            | Run.Session_exit => "exit"
            | Run.Print _ => "print"
            | Run.Session_enter => "enter"
            | Run.DatasetManager_new _ => "dataset"
            | Run.Log _ => "log"
            | _ => "other"
            end)
    (Run.trace
       (ModelWrangler.train Examples.two_batches Examples.whole_holdout
          Examples.constant_engine Examples.some_wrangler Examples.some_rows
          Examples.some_rows (PList [PInt 1])
          {| Run.pending := Some 3%nat; Run.trace := [] |}).2)
  = ["dataset"; "enter"; "log"; "exit"; "print"].
Proof. split; reflexivity. Qed.

(** ** [feature_importance] on a concrete orchestrator *)



(** ** [find_metagraph] and [load] *)

Lemma max_from_elem {A} (key : A → result Z) (rest : list A) (best : A) (best_key : Z)
    (x : A) :
  ModelParams.max_from key best best_key rest = Ok x → x = best ∨ x ∈ rest.
Proof.
  revert best best_key. induction rest as [ | y rest IH]; intros best best_key; simpl.
  - intros [= <-]. by left.
  - destruct (key y) as [k | e]; simpl; [ | discriminate].
    destruct (best_key <? k)%Z; intros H; apply IH in H as [-> | H].
    + right. apply list_elem_of_here.
    + right. by apply list_elem_of_further.
    + by left.
    + right. by apply list_elem_of_further.
Qed.

Lemma py_max_elem {A} (key : A → result Z) (l : list A) (x : A) :
  ModelParams.py_max key l = Ok x → x ∈ l.
Proof.
  destruct l as [ | y l]; simpl; [discriminate | ].
  destruct (key y) as [k | e]; simpl; [ | discriminate].
  intros [-> | H]%max_from_elem; [apply list_elem_of_here | by apply list_elem_of_further].
Qed.

Lemma str_iter_one_character (s x : string) :
  x ∈ str_iter s → String.length x = 1%nat.
Proof.
  induction s as [ | c s IH]; simpl.
  - by intros ?%elem_of_nil.
  - intros [-> | H]%elem_of_cons; [done | by apply IH].
Qed.

(** C5.  [find_metagraph] does not locate the most recently created
    checkpoint structure file: [max] runs over the characters of the
    pattern string that [os.path.join] returns, so whatever the call
    returns is one character of that pattern, and it raises as soon as
    one of the characters names no file.  On a model directory that
    holds two such files it raises [OSError]. *)
Theorem find_metagraph_returns_a_character :
  (∀ (params : ModelParams.t) (fs : Os.filesystem) (found : string),
     ModelParams.find_metagraph params fs = Ok found →
     String.length found = 1%nat ∧
     ∃ p, ModelParams.path params = Plain (PStr p) ∧
          found ∈ str_iter (Os.path_join p "*.meta")) ∧
  Os.getctime Examples.meta_fs "./newmodel/saver-meta-0.meta" = Ok 5%Z ∧
  Os.getctime Examples.meta_fs "./newmodel/saver-meta-1.meta" = Ok 9%Z ∧
  ModelParams.find_metagraph Examples.some_params Examples.meta_fs = Raise OSError.
Proof.
  split; [ | split; [ | split]]; try (vm_compute; reflexivity).
  intros params fs found. unfold ModelParams.find_metagraph.
  destruct (ModelParams.path params) as [[ | | | | p | | | ] | | ]; simpl; try discriminate.
  intros Hmax%py_max_elem. split; [by eapply str_iter_one_character | ].
  by exists p.
Qed.

(** When every character of the pattern happens to name a file, the
    call returns the character whose file was created last. *)
Example find_metagraph_on_character_files :
  ModelParams.find_metagraph
    {| ModelParams.verb := Plain (PBool true); ModelParams.name := Plain (PStr "m");
       ModelParams.path := Plain (PStr "."); ModelParams.in_size := Plain (PInt 10);
       ModelParams.out_size := Plain (PInt 3); ModelParams.max_iter := Plain (PInt 500);
       ModelParams.batch_size := Plain (PInt 250);
       ModelParams.num_epoch := Plain (PInt 2) |}
    {| Os.nodes :=
         list_to_map
           [(".", (Os.Dir, 0%Z)); ("/", (Os.Dir, 0%Z)); ("*", (Os.File None, 3%Z));
            ("m", (Os.File None, 7%Z)); ("e", (Os.File None, 4%Z));
            ("t", (Os.File None, 7%Z)); ("a", (Os.File None, 2%Z));
            ("./new.meta", (Os.File None, 9%Z))];
       Os.clock := 10 |}
  = Ok "m".
Proof. vm_compute. reflexivity. Qed.


(** * Further properties *)

(** ** [BaseNetworkParams.__init__]: defaults and keyword arguments *)

Lemma set_from_other (table : list (string * pyval)) (kwargs : list (string * attr))
    (self : gmap string attr) (a : string) :
  a ∉ map fst table → TfModels.set_from table kwargs self !! a = self !! a.
Proof.
  unfold TfModels.set_from. revert self.
  induction table as [ | [k d] table IH]; intros self Hnot; simpl; [done | ].
  rewrite IH.
  - apply lookup_insert_ne. intros ->. apply Hnot. simpl. apply list_elem_of_here.
  - intros Hin. apply Hnot. simpl. by apply list_elem_of_further.
Qed.

Lemma set_from_listed (table : list (string * pyval)) (kwargs : list (string * attr))
    (self : gmap string attr) (a : string) :
  a ∈ map fst table →
  ∃ d, (a, d) ∈ table ∧
       TfModels.set_from table kwargs self !! a = Some (dict_get kwargs a (Plain d)).
Proof.
  revert self. induction table as [ | [k d] table IH]; intros self Hin.
  - by apply elem_of_nil in Hin.
  - destruct (decide (a ∈ map fst table)) as [Hrest | Hnot].
    + destruct (IH (<[k := dict_get kwargs k (Plain d)]> self) Hrest) as (d' & Hd' & Hl).
      exists d'. split; [by apply list_elem_of_further | exact Hl].
    + simpl in Hin. apply elem_of_cons in Hin as [-> | Hin]; [ | done].
      exists d. split; [apply list_elem_of_here | ].
      change (TfModels.set_from ((k, d) :: table) kwargs self)
        with (TfModels.set_from table kwargs (<[k := dict_get kwargs k (Plain d)]> self)).
      rewrite set_from_other by done. by rewrite lookup_insert_eq.
Qed.

(** The attributes of the instance before the derived paths are set. *)
Lemma merged_tables_lookup (cls : TfModels.params_class) (kwargs : list (string * attr))
    (a : string) :
  let self := TfModels.set_from (TfModels.DATASET_MANAGER_PARAMS cls) kwargs
                (TfModels.set_from (TfModels.MODEL_SPECIFIC_ATTRIBUTES cls) kwargs
                   (TfModels.set_from (TfModels.REQUIRED_ATTRIBUTES cls) kwargs ∅)) in
  (a ∈ MoreProps.table_keys cls →
   ∃ d, ((a, d) ∈ TfModels.REQUIRED_ATTRIBUTES cls ∨
         (a, d) ∈ TfModels.MODEL_SPECIFIC_ATTRIBUTES cls ∨
         (a, d) ∈ TfModels.DATASET_MANAGER_PARAMS cls) ∧
        self !! a = Some (dict_get kwargs a (Plain d))) ∧
  (a ∉ MoreProps.table_keys cls → self !! a = None).
Proof.
  cbn zeta. unfold MoreProps.table_keys. split.
  - intros Hin.
    destruct (decide (a ∈ map fst (TfModels.DATASET_MANAGER_PARAMS cls))) as [H3 | H3].
    { destruct (set_from_listed _ kwargs
                  (TfModels.set_from (TfModels.MODEL_SPECIFIC_ATTRIBUTES cls) kwargs
                     (TfModels.set_from (TfModels.REQUIRED_ATTRIBUTES cls) kwargs ∅))
                  a H3) as (d & Hd & Hl). exists d. auto. }
    rewrite set_from_other by done.
    destruct (decide (a ∈ map fst (TfModels.MODEL_SPECIFIC_ATTRIBUTES cls))) as [H2 | H2].
    { destruct (set_from_listed _ kwargs
                  (TfModels.set_from (TfModels.REQUIRED_ATTRIBUTES cls) kwargs ∅)
                  a H2) as (d & Hd & Hl). exists d. auto. }
    rewrite set_from_other by done.
    apply elem_of_app in Hin as [H1 | Hin];
      [ | apply elem_of_app in Hin as [? | ?]; done].
    destruct (set_from_listed _ kwargs ∅ a H1) as (d & Hd & Hl). exists d. auto.
  - intros Hnot. rewrite !set_from_other; [apply lookup_empty | | | ];
      intros Hin; apply Hnot; rewrite !elem_of_app; auto.
Qed.

Lemma init_attributes_inv (cls : TfModels.params_class) (kwargs : list (string * attr))
    (self : gmap string attr) (path tb_log_path : string) :
  TfModels.init_attributes cls kwargs = Ok (self, path, tb_log_path) →
  let merged := TfModels.set_from (TfModels.DATASET_MANAGER_PARAMS cls) kwargs
                  (TfModels.set_from (TfModels.MODEL_SPECIFIC_ATTRIBUTES cls) kwargs
                     (TfModels.set_from (TfModels.REQUIRED_ATTRIBUTES cls) kwargs ∅)) in
  ∃ name,
    merged !! "name" = Some (Plain (PStr name)) ∧
    dict_get kwargs "path" (Plain (PStr (Os.path_join Os.curdir name)))
    = Plain (PStr path) ∧
    tb_log_path = Os.path_join path "tb_log" ∧
    self = <["tb_log_path" := Plain (PStr tb_log_path)]>
             (<["meta_filename" := Plain (PStr (Os.path_join path "saver-meta"))]>
                (<["path" := Plain (PStr path)]> merged)).
Proof.
  cbn zeta. unfold TfModels.init_attributes, getattr.
  match goal with |- context [?m !! "name"] => destruct (m !! "name") as [name | ] end;
    simpl; [ | discriminate].
  destruct name as [[ | | | | name | | | ] | | ]; simpl; try discriminate.
  rewrite lookup_insert_eq. simpl.
  match goal with |- context [as_str ?v] =>
    destruct v as [[ | | | | path' | | | ] | | ] eqn:Hpath end; simpl; try discriminate.
  intros [= <- <- <-]. by exists name.
Qed.

(** X1.  The attributes of a parameter object are those its class
    tables list, together with the three derived paths: a keyword
    argument for a listed name becomes the attribute, a listed name
    without keyword gets a default of a table, and a keyword argument
    for a name that no table lists is dropped. *)
Theorem init_attributes_merge (cls : TfModels.params_class)
    (kwargs : list (string * attr)) (self : gmap string attr)
    (path tb_log_path : string) (a : string) :
  TfModels.init_attributes cls kwargs = Ok (self, path, tb_log_path) →
  a ∉ MoreProps.derived →
  (a ∈ MoreProps.table_keys cls →
   (∀ v, dict_lookup a kwargs = Some v → self !! a = Some v) ∧
   (dict_lookup a kwargs = None →
    ∃ d, ((a, d) ∈ TfModels.REQUIRED_ATTRIBUTES cls ∨
          (a, d) ∈ TfModels.MODEL_SPECIFIC_ATTRIBUTES cls ∨
          (a, d) ∈ TfModels.DATASET_MANAGER_PARAMS cls) ∧
         self !! a = Some (Plain d))) ∧
  (a ∉ MoreProps.table_keys cls → self !! a = None).
Proof.
  intros Hinit Hder.
  destruct (init_attributes_inv _ _ _ _ _ Hinit) as (name & _ & _ & _ & ->).
  assert (Hne : a ≠ "tb_log_path" ∧ a ≠ "meta_filename" ∧ a ≠ "path").
  { unfold MoreProps.derived in Hder. rewrite !not_elem_of_cons in Hder.
    destruct Hder as (? & ? & ? & _). done. }
  destruct Hne as (N1 & N2 & N3).
  rewrite !lookup_insert_ne by done.
  destruct (merged_tables_lookup cls kwargs a) as [Hin Hout]. cbn zeta in Hin, Hout.
  split; [ | exact Hout].
  intros Hk. destruct (Hin Hk) as (d & Hd & ->). unfold dict_get. split.
  - by intros v ->.
  - intros ->. by exists d.
Qed.

Lemma init_attributes_merge_witness :
  ("colour" ∈ MoreProps.table_keys TfModels.BaseNetworkParams →
   (∀ v, dict_lookup "colour" MoreProps.colour_kwargs = Some v →
         MoreProps.colour_params !! "colour" = Some v) ∧
   (dict_lookup "colour" MoreProps.colour_kwargs = None →
    ∃ d, (("colour", d) ∈ TfModels.REQUIRED_ATTRIBUTES TfModels.BaseNetworkParams ∨
          ("colour", d) ∈ TfModels.MODEL_SPECIFIC_ATTRIBUTES TfModels.BaseNetworkParams ∨
          ("colour", d) ∈ TfModels.DATASET_MANAGER_PARAMS TfModels.BaseNetworkParams) ∧
         MoreProps.colour_params !! "colour" = Some (Plain d))) ∧
  ("colour" ∉ MoreProps.table_keys TfModels.BaseNetworkParams →
   MoreProps.colour_params !! "colour" = None).
Proof.
  apply (init_attributes_merge TfModels.BaseNetworkParams MoreProps.colour_kwargs
           MoreProps.colour_params "./newmodel" "./newmodel/tb_log" "colour").
  - by_vm.
  - unfold MoreProps.derived. rewrite !not_elem_of_cons.
    repeat split; try discriminate. apply not_elem_of_nil.
Defined.

(** X2.  The three paths of a parameter object are derived: [path] is
    the keyword argument when one is given and [os.path.join('.', name)]
    otherwise, so that it follows [name]; [meta_filename] and
    [tb_log_path] are always joined from [path], whatever the caller
    passes for them. *)
Theorem derived_paths_follow_path (cls : TfModels.params_class)
    (kwargs : list (string * attr)) (self : gmap string attr)
    (path tb_log_path : string) :
  TfModels.init_attributes cls kwargs = Ok (self, path, tb_log_path) →
  self !! "path" = Some (Plain (PStr path)) ∧
  self !! "meta_filename" = Some (Plain (PStr (Os.path_join path "saver-meta"))) ∧
  self !! "tb_log_path" = Some (Plain (PStr (Os.path_join path "tb_log"))) ∧
  tb_log_path = Os.path_join path "tb_log" ∧
  (∀ v, dict_lookup "path" kwargs = Some v → v = Plain (PStr path)) ∧
  (dict_lookup "path" kwargs = None →
   ∃ name, self !! "name" = Some (Plain (PStr name)) ∧
           path = Os.path_join Os.curdir name).
Proof.
  intros Hinit.
  destruct (init_attributes_inv _ _ _ _ _ Hinit) as (name & Hname & Hpath & -> & ->).
  split; [by rewrite !lookup_insert_ne, lookup_insert_eq by discriminate | ].
  split; [by rewrite lookup_insert_ne, lookup_insert_eq by discriminate | ].
  split; [by rewrite lookup_insert_eq | ]. split; [done | ].
  unfold dict_get in Hpath. split.
  - intros v Hv. by rewrite Hv in Hpath.
  - intros Hnone. rewrite Hnone in Hpath. injection Hpath as <-.
    exists name. split; [ | done].
    by rewrite !lookup_insert_ne by discriminate.
Qed.

Lemma derived_paths_follow_path_witness :
  MoreProps.colour_params !! "path" = Some (Plain (PStr "./newmodel")) ∧
  MoreProps.colour_params !! "meta_filename"
  = Some (Plain (PStr (Os.path_join "./newmodel" "saver-meta"))) ∧
  MoreProps.colour_params !! "tb_log_path"
  = Some (Plain (PStr (Os.path_join "./newmodel" "tb_log"))) ∧
  "./newmodel/tb_log" = Os.path_join "./newmodel" "tb_log" ∧
  (∀ v, dict_lookup "path" MoreProps.colour_kwargs = Some v →
        v = Plain (PStr "./newmodel")) ∧
  (dict_lookup "path" MoreProps.colour_kwargs = None →
   ∃ name, MoreProps.colour_params !! "name" = Some (Plain (PStr name)) ∧
           "./newmodel" = Os.path_join Os.curdir name).
Proof.
  apply (derived_paths_follow_path TfModels.BaseNetworkParams MoreProps.colour_kwargs
           MoreProps.colour_params "./newmodel" "./newmodel/tb_log").
  by_vm.
Defined.

(** X3.  The default of [path] is computed before the keyword is looked
    up: a [name] that is not a string makes the construction raise
    [TypeError], with no directory created, even when the caller
    supplies [path].  The same holds for the orchestrator's
    [ModelParams]. *)
Theorem name_must_be_a_string (layer_defaults : LayerConfig)
    (conv_defaults : ConvLayerConfig) (cls : TfModels.params_class)
    (kwargs : list (string * attr)) (fs : Os.filesystem) (v : attr) :
  dict_lookup "name" kwargs = Some v →
  as_str v = Raise TypeError →
  ("name" ∈ MoreProps.table_keys cls →
   TfModels.init layer_defaults conv_defaults cls kwargs fs = (fs, Raise TypeError)) ∧
  ModelParams.init kwargs = Raise TypeError.
Proof.
  intros Hk Hv. split.
  - intros Hin. unfold TfModels.init, TfModels.init_attributes, getattr.
    destruct (merged_tables_lookup cls kwargs "name") as [Hl _]. cbn zeta in Hl.
    destruct (Hl Hin) as (d & _ & ->). unfold dict_get. rewrite Hk. cbn [Py.bind].
    by rewrite Hv.
  - unfold ModelParams.init, dict_get. rewrite Hk. by rewrite Hv.
Qed.

Lemma name_must_be_a_string_witness :
  ("name" ∈ MoreProps.table_keys TfModels.BaseNetworkParams →
   TfModels.init Props.some_layer_defaults Props.some_conv_defaults
     TfModels.BaseNetworkParams
     [("name", Plain (PInt 5)); ("path", Plain (PStr "/tmp/model"))] Props.fresh_fs
   = (Props.fresh_fs, Raise TypeError)) ∧
  ModelParams.init [("name", Plain (PInt 5)); ("path", Plain (PStr "/tmp/model"))]
  = Raise TypeError.
Proof.
  apply (name_must_be_a_string Props.some_layer_defaults Props.some_conv_defaults
           TfModels.BaseNetworkParams
           [("name", Plain (PInt 5)); ("path", Plain (PStr "/tmp/model"))]
           Props.fresh_fs (Plain (PInt 5))); reflexivity.
Defined.

(** ** Promotion of the layer attributes *)

Lemma promote_layers_inv (layer_defaults : LayerConfig) (conv_defaults : ConvLayerConfig)
    (types : list (string * layer_class)) :
  NoDup (map fst types) →
  ∀ self self' : gmap string attr,
    TfModels.promote_layers layer_defaults conv_defaults types self = Ok self' →
    (∀ a cls, (a, cls) ∈ types →
       ∃ d, self !! a = Some (Plain (PDict d)) ∧
            self' !! a = Some (Layer (layer_new layer_defaults conv_defaults cls d))) ∧
    (∀ a, a ∉ map fst types → self' !! a = self !! a).
Proof.
  induction types as [ | [k c] types IH]; intros Hnd self self'; simpl.
  - intros [= <-]. split; [intros a cls Hin; by apply elem_of_nil in Hin | done].
  - apply NoDup_cons in Hnd as [Hk Hnd]. unfold getattr.
    destruct (self !! k) as [[[ | | | | | | | d] | | ] | ] eqn:Hsk; simpl; try discriminate.
    intros Hrest. destruct (IH Hnd _ _ Hrest) as [Hin Hout]. split.
    + intros a cls [[= -> ->] | Ha]%elem_of_cons.
      * exists d. split; [done | ]. rewrite (Hout k Hk). by rewrite lookup_insert_eq.
      * destruct (Hin a cls Ha) as (d' & Hd' & Hs').
        assert (a ≠ k).
        { intros ->. apply Hk. apply list_elem_of_fmap. by exists (k, cls). }
        rewrite lookup_insert_ne in Hd' by done. by exists d'.
    + intros a Ha. rewrite not_elem_of_cons in Ha. destruct Ha as [Hak Ha].
      rewrite (Hout a Ha). by rewrite lookup_insert_ne.
Qed.

Lemma promote_layers_returns (layer_defaults : LayerConfig)
    (conv_defaults : ConvLayerConfig) (types : list (string * layer_class)) :
  NoDup (map fst types) →
  ∀ self : gmap string attr,
    (∀ a cls, (a, cls) ∈ types → ∃ d, self !! a = Some (Plain (PDict d))) →
    ∃ self', TfModels.promote_layers layer_defaults conv_defaults types self = Ok self'.
Proof.
  induction types as [ | [k c] types IH]; intros Hnd self Hall; simpl.
  - by eexists.
  - apply NoDup_cons in Hnd as [Hk Hnd]. unfold getattr.
    destruct (Hall k c) as [d Hd]; [apply list_elem_of_here | ]. rewrite Hd. simpl.
    apply IH; [done | ]. intros a cls Ha.
    destruct (Hall a cls) as [d' Hd']; [by apply list_elem_of_further | ].
    exists d'. rewrite lookup_insert_ne; [done | ].
    intros ->. apply Hk. apply list_elem_of_fmap. by exists (a, cls).
Qed.

(** X4.  The promotion loop succeeds exactly when every attribute that
    the class declares as a layer configuration holds a mapping; it
    then holds the instance its declared class builds from that mapping
    alone, and every other attribute is unchanged.  A keyword argument
    for such an attribute therefore replaces the default mapping of the
    class as a whole: the two are not merged. *)
Theorem promotion_builds_declared_instances (layer_defaults : LayerConfig)
    (conv_defaults : ConvLayerConfig) (types : list (string * layer_class))
    (self : gmap string attr) :
  NoDup (map fst types) →
  ((∃ self', TfModels.promote_layers layer_defaults conv_defaults types self = Ok self')
   ↔ (∀ a cls, (a, cls) ∈ types → ∃ d, self !! a = Some (Plain (PDict d)))) ∧
  (∀ self',
     TfModels.promote_layers layer_defaults conv_defaults types self = Ok self' →
     (∀ a cls, (a, cls) ∈ types →
        ∃ d, self !! a = Some (Plain (PDict d)) ∧
             self' !! a = Some (Layer (layer_new layer_defaults conv_defaults cls d))) ∧
     (∀ a, a ∉ map fst types → self' !! a = self !! a)).
Proof.
  intros Hnd. split; [split | ].
  - intros [self' Hp] a cls Ha.
    destruct (promote_layers_inv _ _ _ Hnd _ _ Hp) as [Hin _].
    destruct (Hin a cls Ha) as (d & Hd & _). by exists d.
  - by apply promote_layers_returns.
  - intros self'. by apply promote_layers_inv.
Qed.

Lemma promotion_builds_declared_instances_witness :
  ((∃ self',
      TfModels.promote_layers Props.some_layer_defaults Props.some_conv_defaults
        (TfModels.LAYER_PARAM_TYPES DenseAutoencoderModel.DenseAutoencoderParams)
        Props.autoenc_attributes = Ok self')
   ↔ (∀ a cls,
        (a, cls) ∈ TfModels.LAYER_PARAM_TYPES DenseAutoencoderModel.DenseAutoencoderParams →
        ∃ d, Props.autoenc_attributes !! a = Some (Plain (PDict d)))) ∧
  (∀ self',
     TfModels.promote_layers Props.some_layer_defaults Props.some_conv_defaults
       (TfModels.LAYER_PARAM_TYPES DenseAutoencoderModel.DenseAutoencoderParams)
       Props.autoenc_attributes = Ok self' →
     (∀ a cls,
        (a, cls) ∈ TfModels.LAYER_PARAM_TYPES DenseAutoencoderModel.DenseAutoencoderParams →
        ∃ d, Props.autoenc_attributes !! a = Some (Plain (PDict d)) ∧
             self' !! a
             = Some (Layer (layer_new Props.some_layer_defaults Props.some_conv_defaults
                              cls d))) ∧
     (∀ a, a ∉ map fst (TfModels.LAYER_PARAM_TYPES
                          DenseAutoencoderModel.DenseAutoencoderParams) →
           self' !! a = Props.autoenc_attributes !! a)).
Proof.
  apply (promotion_builds_declared_instances Props.some_layer_defaults
           Props.some_conv_defaults
           (TfModels.LAYER_PARAM_TYPES DenseAutoencoderModel.DenseAutoencoderParams)
           Props.autoenc_attributes).
  simpl. repeat (apply NoDup_cons; split; [rewrite ?not_elem_of_cons;
    repeat split; try discriminate; apply not_elem_of_nil | ]). apply NoDup_nil_2.
Defined.

(** A keyword mapping for [encode_params] leaves nothing of the class
    default [{'dropout_rate': 0.1}]: the dropout rate is the default of
    [LayerConfig] again. *)
Example override_replaces_default_mapping :
  (Props.built DenseAutoencoderModel.DenseAutoencoderParams
     [("encode_params", Plain (PDict [("batchnorm", PBool false)]))]).2 !! "encode_params"
  = Some (Layer (LayerObj {| activation := PStr "relu"; act_reg := PNone;
                             bias := PBool true; batchnorm := PBool false;
                             dropout_rate := PFloat 0 |})).
Proof. by_vm. Qed.

(** ** [BaseNetworkParams.save]: saving twice, and saving what cannot be written *)



Lemma make_dir_on_node (p : string) (fs : Os.filesystem) :
  p = "" ∨ is_Some (Os.nodes fs !! p) → TfModels.make_dir p fs = Ok fs.
Proof.
  unfold TfModels.make_dir, Os.makedirs.
  destruct (String.eqb_spec p "") as [-> | Hne]; [done | ].
  intros [-> | [n ->]]; done.
Qed.

Lemma write_file_content (p : string) (content : option Json.json)
    (fs fs' : Os.filesystem) :
  Os.write_file p content fs = Ok fs' →
  ∃ t, Os.nodes fs' !! p = Some (Os.File content, t).
Proof.
  unfold Os.write_file.
  destruct (Os.nodes fs !! p) as [[[ | c] t] | ]; intros [= <-]; simpl; try done;
    eexists; by rewrite lookup_insert_eq.
Qed.






Lemma dump_items_raises (items : list (string * attr)) (k : string) (v : attr) :
  (k, v) ∈ items → Props.serializable v = false →
  TfModels.dump_items items = Raise TypeError.
Proof.
  intros Hin Hv. induction items as [ | [k' v'] items IH]; [by apply elem_of_nil in Hin | ].
  apply elem_of_cons in Hin as [[= <- <-] | Hin].
  - simpl. by destruct v.
  - simpl. destruct v' as [v' | o | c]; simpl; try done. by rewrite (IH Hin).
Qed.

(** X6.  An attribute that holds a class cannot be written.  [save]
    then raises [TypeError], but only after it has converted the layer
    configurations of the instance and opened the parameter file for
    writing: the instance is left converted, and a parameter file saved
    earlier is lost, reading it back fails. *)
Theorem failed_save_loses_file (self : gmap string attr) (fs : Os.filesystem)
    (path name key : string) (c : network_class) :
  self !! "path" = Some (Plain (PStr path)) →
  self !! "name" = Some (Plain (PStr name)) →
  self !! key = Some (Class c) →
  Os.is_dir fs path = true →
  Os.is_dir fs (TfModels.params_fname path name) = false →
  ∃ fs',
    TfModels.save self fs = (Props.to_plain <$> self, fs', Raise TypeError) ∧
    (∀ k o, self !! k = Some (Layer o) →
       (Props.to_plain <$> self) !! k = Some (Plain (PDict (layer_dict o)))) ∧
    ModelWrangler.load_params (TfModels.params_fname path name) fs'
    = Raise ValueError.
Proof.
  intros Hp Hn Hk Hd Hf.
  unfold TfModels.save, getattr. rewrite Hp, Hn. simpl.
  rewrite (make_dir_existing _ _ Hd), convert_layer_attrs_fmap.
  assert (Hopen : ∃ fs2, Os.write_file (TfModels.params_fname path name) None fs = Ok fs2).
  { unfold Os.write_file, Os.is_dir in *.
    destruct (Os.nodes fs !! TfModels.params_fname path name) as [[[ | c'] t] | ];
      try done; by eexists. }
  destruct Hopen as [fs2 Hopen]. rewrite Hopen.
  assert (Hdump : TfModels.dump_vars (Props.to_plain <$> self) = Raise TypeError).
  { unfold TfModels.dump_vars.
    rewrite (dump_items_raises _ key (Class c)); [done | | done].
    apply elem_of_map_to_list. by rewrite lookup_fmap, Hk. }
  rewrite Hdump. exists fs2. split; [done | ]. split.
  - intros k o Ho. by rewrite lookup_fmap, Ho.
  - unfold ModelWrangler.load_params, Os.read_file.
    destruct (write_file_content _ _ _ _ Hopen) as [t ->]. done.
Qed.

Lemma failed_save_loses_file_witness :
  ∃ fs',
    TfModels.save MoreProps.class_params.2 MoreProps.class_params.1
    = (Props.to_plain <$> MoreProps.class_params.2, fs', Raise TypeError) ∧
    (∀ k o, MoreProps.class_params.2 !! k = Some (Layer o) →
       (Props.to_plain <$> MoreProps.class_params.2) !! k
       = Some (Plain (PDict (layer_dict o)))) ∧
    ModelWrangler.load_params (TfModels.params_fname "./newmodel" "newmodel") fs'
    = Raise ValueError.
Proof.
  apply (failed_save_loses_file MoreProps.class_params.2 MoreProps.class_params.1
           "./newmodel" "newmodel" "out_size" BaseNetworkCls); by_vm.
Defined.

(** ** [make_dir] *)

(** X7.  [make_dir] never replaces or removes what exists: every node
    of the file system is kept as it is.  When the path already names a
    node, or is empty, the call changes nothing and returns all the
    same; so when the path names a regular file, the call returns
    normally and there is still no directory of that name. *)
Theorem make_dir_keeps_nodes (p : string) (fs fs' : Os.filesystem) :
  TfModels.make_dir p fs = Ok fs' →
  (∀ q n, Os.nodes fs !! q = Some n → Os.nodes fs' !! q = Some n) ∧
  (p = "" ∨ is_Some (Os.nodes fs !! p) → fs' = fs) ∧
  (Os.is_file fs p = true → Os.is_dir fs' p = false).
Proof.
  intros Hm.
  assert (Hsame : p = "" ∨ is_Some (Os.nodes fs !! p) → fs' = fs).
  { intros Hp. rewrite (make_dir_on_node _ _ Hp) in Hm. by injection Hm as <-. }
  split; [ | split; [exact Hsame | ]].
  - intros q n Hq.
    destruct (make_dir_lookup p q fs fs' Hm) as [-> | (_ & Hnone & _)]; [done | ].
    by rewrite Hnone in Hq.
  - unfold Os.is_file, Os.is_dir. intros Hf.
    destruct (Os.nodes fs !! p) as [[[ | c] t] | ] eqn:E; try discriminate.
    assert (fs' = fs) as -> by (apply Hsame; right; by eexists). by rewrite E.
Qed.

Lemma make_dir_keeps_nodes_witness :
  (∀ q n, Os.nodes Props.fresh_fs !! q = Some n →
          Os.nodes MoreProps.newmodel_fs !! q = Some n) ∧
  ("./newmodel" = "" ∨ is_Some (Os.nodes Props.fresh_fs !! "./newmodel") →
   MoreProps.newmodel_fs = Props.fresh_fs) ∧
  (Os.is_file Props.fresh_fs "./newmodel" = true →
   Os.is_dir MoreProps.newmodel_fs "./newmodel" = false).
Proof.
  apply (make_dir_keeps_nodes "./newmodel" Props.fresh_fs MoreProps.newmodel_fs).
  by_vm.
Defined.

(** ** [ModelParams]: saving, and loading what was saved *)

Lemma dumped_keywords (d : gmap string attr) (doc : Json.json) :
  TfModels.dump_vars d = Ok doc →
  ∃ keywords,
    ModelParamsSave.keywords_of (Json.load doc) = Ok keywords ∧
    (∀ key v, d !! key = Some (Plain v) →
       dict_lookup key keywords = Some (Plain (Json.tuples_as_lists v))) ∧
    (∀ key, d !! key = None → dict_lookup key keywords = None).
Proof.
  unfold TfModels.dump_vars. intros Hdump.
  destruct (TfModels.dump_items (map_to_list d)) as [js | e] eqn:E; simpl in Hdump;
    [ | discriminate].
  injection Hdump as <-.
  destruct (dump_items_plain _ _ E) as (plain & Hitems & ->).
  assert (Hd : ∀ key, d !! key = Plain <$> dict_lookup key plain).
  { intros key. rewrite <- (list_to_map_to_list d), Hitems.
    apply (dict_lookup_fmap Plain). }
  eexists. split; [reflexivity | ].
  rewrite !map_map. simpl.
  assert (Hk : ∀ key,
            dict_lookup key
              (map (λ x : string * pyval, (x.1, Plain (Json.load (Json.dump x.2)))) plain)
            = (λ v, Plain (Json.tuples_as_lists v)) <$> dict_lookup key plain).
  { intros key.
    rewrite <- (dict_lookup_fmap (λ v, Plain (Json.tuples_as_lists v))).
    f_equal. apply map_ext. intros [k v]. simpl. by rewrite load_dump. }
  split.
  - intros key v Hkey. rewrite Hk. rewrite Hd in Hkey.
    destruct (dict_lookup key plain) as [v' | ]; [ | discriminate].
    by injection Hkey as ->.
  - intros key Hkey. rewrite Hk. rewrite Hd in Hkey.
    by destruct (dict_lookup key plain).
Qed.

Lemma model_params_save_inv (self : ModelParams.t) (fs fs' : Os.filesystem) :
  ModelParamsSave.save self fs = (fs', Ok tt) →
  ∃ p n fname doc fs2,
    ModelParams.path self = Plain (PStr p) ∧
    ModelParams.name self = Plain (PStr n) ∧
    ModelParamsSave.params_fname self = Ok fname ∧
    TfModels.dump_vars (ModelParams.vars self) = Ok doc ∧
    Os.write_file fname (Some doc) fs2 = Ok fs'.
Proof.
  unfold ModelParamsSave.save, ModelParams.init_save_dir, ModelParamsSave.params_fname.
  destruct (ModelParams.path self) as [[ | | | | p | | | ] | | ] eqn:Hp; simpl;
    try by intros [=].
  destruct (match Os.makedirs p fs with
            | Ok fs' => Ok fs'
            | Raise OSError => Ok fs
            | Raise e => Raise e
            end) as [fs1 | e]; [ | by intros [=]].
  destruct (ModelParams.name self) as [[ | | | | n | | | ] | | ] eqn:Hn; simpl;
    try by intros [=].
  match goal with |- context [Os.write_file ?f None fs1] =>
    destruct (Os.write_file f None fs1) as [fs2 | e] eqn:Hw; [ | by intros [=]] end.
  destruct (TfModels.dump_vars (ModelParams.vars self)) as [doc | e] eqn:Hd;
    [ | by intros [=]].
  match goal with |- context [Os.write_file ?f (Some doc) fs2] =>
    destruct (Os.write_file f (Some doc) fs2) as [fs3 | e] eqn:Hw'; [ | by intros [=]] end.
  intros [= <-]. exists p, n. eexists _, doc, fs2.
  split; [reflexivity | ]. split; [reflexivity | ]. split; [reflexivity | ].
  split; [reflexivity | exact Hw'].
Qed.

Lemma json_native_fields (self : ModelParams.t) :
  MoreProps.json_native self = true →
  ∀ key v, ModelParams.vars self !! key = Some v →
    ∃ v', v = Plain v' ∧ Json.tuple_free v' = true.
Proof.
  unfold MoreProps.json_native. rewrite !andb_true_iff.
  intros (((((((H1 & H2) & H3) & H4) & H5) & H6) & H7) & H8) key v.
  unfold ModelParams.vars. cbn [list_to_map foldr uncurry fst snd].
  repeat match goal with
         | |- <[?k := ?a]> _ !! key = Some v → _ =>
             destruct (decide (key = k)) as [-> | ?];
             [rewrite lookup_insert_eq; intros [= <-];
              destruct a as [v' | | ]; try discriminate; by exists v'
             | rewrite lookup_insert_ne by done]
         end.
  by rewrite lookup_empty.
Qed.

Lemma init_from_vars (kwargs : list (string * attr)) (self : ModelParams.t) :
  (∀ key v, ModelParams.vars self !! key = Some v → dict_lookup key kwargs = Some v) →
  (∃ n, ModelParams.name self = Plain (PStr n)) →
  (∃ p, ModelParams.path self = Plain (PStr p)) →
  ModelParams.init kwargs = Ok self.
Proof.
  intros H [n Hn] [p Hp]. unfold ModelParams.init, dict_get.
  rewrite (H "verb" (ModelParams.verb self) eq_refl).
  rewrite (H "name" (ModelParams.name self) eq_refl).
  rewrite (H "path" (ModelParams.path self) eq_refl).
  rewrite (H "in_size" (ModelParams.in_size self) eq_refl).
  rewrite (H "out_size" (ModelParams.out_size self) eq_refl).
  rewrite (H "max_iter" (ModelParams.max_iter self) eq_refl).
  rewrite (H "batch_size" (ModelParams.batch_size self) eq_refl).
  rewrite (H "num_epoch" (ModelParams.num_epoch self) eq_refl).
  clear H. destruct self; simpl in *. subst. reflexivity.
Qed.

Lemma saved_keywords (self : ModelParams.t) (fs fs' : Os.filesystem) :
  ModelParamsSave.save self fs = (fs', Ok tt) →
  MoreProps.json_native self = true →
  ∃ fname params keywords,
    ModelParamsSave.params_fname self = Ok fname ∧
    ModelWrangler.load_params fname fs' = Ok params ∧
    ModelParamsSave.keywords_of params = Ok keywords ∧
    (∀ key v, ModelParams.vars self !! key = Some v → dict_lookup key keywords = Some v) ∧
    (∀ key, ModelParams.vars self !! key = None → dict_lookup key keywords = None) ∧
    (∃ n, ModelParams.name self = Plain (PStr n)) ∧
    (∃ p, ModelParams.path self = Plain (PStr p)).
Proof.
  intros Hsave Hnative.
  destruct (model_params_save_inv _ _ _ Hsave)
    as (p & n & fname & doc & fs2 & Hp & Hn & Hf & Hd & Hw).
  destruct (dumped_keywords _ _ Hd) as (keywords & Hk & Hsome & Hnone).
  exists fname, (Json.load doc), keywords.
  split; [done | ]. split.
  { unfold ModelWrangler.load_params. by rewrite (write_file_read _ _ _ _ Hw). }
  split; [done | ]. split.
  { intros key v Hv.
    destruct (json_native_fields self Hnative key v Hv) as (v' & -> & Hfree).
    rewrite (Hsome key v' Hv). by rewrite tuples_as_lists_tuple_free. }
  split; [done | ]. split; by eexists.
Qed.

(** X8.  What [ModelParams.save] writes is what [ModelParams] is built
    from again: when [save] has returned for a parameter object whose
    attributes are JSON data (no tuple), the file it names is read back
    by the first statement of [load], the mapping read is a mapping of
    keyword arguments, and [ModelParams] built from these is the object
    that was saved. *)
Theorem model_params_roundtrip (self : ModelParams.t) (fs fs' : Os.filesystem) :
  ModelParamsSave.save self fs = (fs', Ok tt) →
  MoreProps.json_native self = true →
  ∃ fname params keywords,
    ModelParamsSave.params_fname self = Ok fname ∧
    ModelWrangler.load_params fname fs' = Ok params ∧
    ModelParamsSave.keywords_of params = Ok keywords ∧
    ModelParams.init keywords = Ok self.
Proof.
  intros Hsave Hnative.
  destruct (saved_keywords _ _ _ Hsave Hnative)
    as (fname & params & keywords & Hf & Hl & Hk & Hsome & _ & Hn & Hp).
  exists fname, params, keywords. repeat split; try done.
  by apply init_from_vars.
Qed.

Lemma model_params_roundtrip_witness :
  ∃ fname params keywords,
    ModelParamsSave.params_fname Examples.some_params = Ok fname ∧
    ModelWrangler.load_params fname MoreProps.saved_model_params = Ok params ∧
    ModelParamsSave.keywords_of params = Ok keywords ∧
    ModelParams.init keywords = Ok Examples.some_params.
Proof.
  apply (model_params_roundtrip Examples.some_params Props.fresh_fs
           MoreProps.saved_model_params); by_vm.
Defined.




(** ** The convolutional autoencoder *)

Lemma make_conv_layer_stage (conv_defaults : ConvLayerConfig) (is_training input : tensor)
    (units : pyval) (label : string) (layer_config : attr) (c : ConvLayerConfig) :
  TfModels.conv_config conv_defaults layer_config = Ok c →
  TfModels.make_conv_layer conv_defaults is_training input units label layer_config
  = Ok (GraphProps.conv_stage is_training c input units label).
Proof.
  intros Hc.
  unfold TfModels.make_conv_layer, TfModels.make_conv_layer_stacks, TfModels.add_stage,
    GraphProps.conv_stage, GraphProps.optional.
  rewrite Hc. cbn [Py.bind].
  destruct (truthy (batchnorm (conv_base c))), (truthy (pool_size c)),
    (truthy (dropout_rate (conv_base c))); reflexivity.
Qed.

Lemma make_deconv_layer_stage (conv_defaults : ConvLayerConfig)
    (is_training input : tensor) (units : pyval) (label : string) (layer_config : attr)
    (c : ConvLayerConfig) (pad : pyval) :
  TfModels.conv_config conv_defaults layer_config = Ok c →
  (truthy (pool_size c) = true → TfModels.pad_size (pool_size c) = Ok pad) →
  TfModels.make_deconv_layer conv_defaults is_training input units label layer_config
  = Ok (GraphProps.deconv_stage is_training c pad input units label).
Proof.
  intros Hc Hpad.
  unfold TfModels.make_deconv_layer, TfModels.make_deconv_layer_stacks,
    TfModels.add_stage, TfModels._make_unpool, GraphProps.deconv_stage,
    GraphProps.optional.
  rewrite Hc. cbn [Py.bind].
  destruct (truthy (pool_size c)); [rewrite (Hpad eq_refl) | ];
    destruct (truthy (batchnorm (conv_base c))), (truthy (strides c)),
      (truthy (dropout_rate (conv_base c))); reflexivity.
Qed.

Lemma layer_stages_sequence
    (make_layer : tensor → pyval → string → attr → result tensor)
    (stage : tensor → pyval → string → tensor) (params : gmap string attr)
    (prefix config : string) (layer_config : attr) (nodes : list pyval) :
  params !! config = Some layer_config →
  (∀ input units label,
     make_layer input units label layer_config = Ok (stage input units label)) →
  ∀ (idx : nat) (layers : list tensor) (t : tensor),
    last layers = Some t →
    ∃ layers',
      ConvolutionalAutoencoderModel.layer_stages make_layer params prefix config idx
        nodes layers = Ok layers' ∧
      last layers' = Some (GraphProps.stage_sequence stage prefix idx nodes t) ∧
      head layers' = head layers ∧
      length layers' = (length layers + length nodes)%nat.
Proof.
  intros Hcfg Hmake. induction nodes as [ | units nodes IH]; intros idx layers t Hlast.
  - exists layers. simpl. by rewrite Nat.add_0_r.
  - cbn [ConvolutionalAutoencoderModel.layer_stages GraphProps.stage_sequence].
    unfold TfModels.top, getattr. rewrite Hlast, Hcfg. cbn [Py.bind].
    rewrite Hmake. cbn [Py.bind].
    destruct (IH (S idx) (layers ++ [stage t units (prefix +:+ "_" +:+ pretty idx)])
                (stage t units (prefix +:+ "_" +:+ pretty idx)))
      as (layers' & -> & Hl & Hh & Hn); [apply last_snoc | ].
    exists layers'. split; [done | ]. split; [done | ]. split.
    + rewrite Hh. destruct layers; [discriminate | done].
    + rewrite Hn, length_app. simpl. lia.
Qed.

(** X10.  [ConvolutionalAutoencoderModel.setup_layers] assembles this
    graph: an input placeholder whose shape is [None] followed by the
    entries of [in_size] when that is a list or a tuple and by
    [in_size, 1] otherwise; one convolution stage per entry of
    [encode_nodes]; the bottleneck; one deconvolution stage per entry
    of [decode_nodes]; an output deconvolution stage of one filter,
    whatever [in_size] is, fitted to the shape of the target
    placeholder, which is the shape of the input; and the mean squared
    error between the target and that output.  The four configurations
    may be instances or mappings, and the unpooling of a deconvolution
    stage needs a pool size that is an integer or a sequence of
    numbers. *)
Theorem conv_autoencoder_setup_layers (conv_defaults : ConvLayerConfig)
    (self : gmap string tensor) (params : gmap string attr) (is_training : tensor)
    (in_size encode_value bottleneck_dim decode_value : pyval)
    (encode_nodes decode_nodes : list pyval)
    (encode_cfg bottleneck_cfg decode_cfg output_cfg : attr)
    (encode_params bottleneck_params decode_params output_params : ConvLayerConfig)
    (decode_pad output_pad : pyval) :
  self !! "is_training" = Some is_training →
  params !! "in_size" = Some (Plain in_size) →
  params !! "encode_nodes" = Some (Plain encode_value) →
  py_iter encode_value = Ok encode_nodes →
  params !! "encode_params" = Some encode_cfg →
  TfModels.conv_config conv_defaults encode_cfg = Ok encode_params →
  params !! "bottleneck_dim" = Some (Plain bottleneck_dim) →
  params !! "bottleneck_params" = Some bottleneck_cfg →
  TfModels.conv_config conv_defaults bottleneck_cfg = Ok bottleneck_params →
  params !! "decode_nodes" = Some (Plain decode_value) →
  py_iter decode_value = Ok decode_nodes →
  params !! "decode_params" = Some decode_cfg →
  TfModels.conv_config conv_defaults decode_cfg = Ok decode_params →
  (truthy (pool_size decode_params) = true →
   TfModels.pad_size (pool_size decode_params) = Ok decode_pad) →
  params !! "output_params" = Some output_cfg →
  TfModels.conv_config conv_defaults output_cfg = Ok output_params →
  (truthy (pool_size output_params) = true →
   TfModels.pad_size (pool_size output_params) = Ok output_pad) →
  ConvolutionalAutoencoderModel.setup_layers conv_defaults self params
  = Ok (GraphProps.conv_autoencoder_graph is_training in_size encode_nodes
          encode_params bottleneck_dim bottleneck_params decode_nodes decode_params
          decode_pad output_params output_pad).
Proof.
  intros Ht Hin Hen Heni Hep Hec Hbd Hbp Hbc Hdn Hdni Hdp Hdc Hdpad Hop Hoc Hopad.
  unfold ConvolutionalAutoencoderModel.setup_layers, TfModels.self_tensor, getattr.
  rewrite Ht, Hin, Hen. cbn [Py.bind as_data]. rewrite Heni. cbn [Py.bind].
  set (in_layer := placeholder "float" "input"
                     (Some (ConvolutionalAutoencoderModel.in_shape in_size))).
  destruct (layer_stages_sequence
              (TfModels.make_conv_layer conv_defaults is_training)
              (GraphProps.conv_stage is_training encode_params) params "encode"
              "encode_params" encode_cfg encode_nodes Hep
              (λ i u l, make_conv_layer_stage conv_defaults is_training i u l _ _ Hec)
              0%nat [in_layer] in_layer eq_refl)
    as (enc & -> & Hel & Heh & _).
  cbn [Py.bind]. unfold TfModels.top at 1. rewrite Hel. cbn [Py.bind].
  rewrite Hbd, Hbp. cbn [Py.bind as_data].
  rewrite (make_conv_layer_stage _ _ _ _ _ _ _ Hbc). cbn [Py.bind].
  rewrite Hdn. cbn [Py.bind as_data]. rewrite Hdni. cbn [Py.bind].
  match goal with
  | |- context [ConvolutionalAutoencoderModel.layer_stages _ _ _ _ _ _ [?b]] =>
      destruct (layer_stages_sequence
                  (TfModels.make_deconv_layer conv_defaults is_training)
                  (GraphProps.deconv_stage is_training decode_params decode_pad) params
                  "decode" "decode_params" decode_cfg decode_nodes Hdp
                  (λ i u l, make_deconv_layer_stage conv_defaults is_training i u l _ _ _
                              Hdc Hdpad)
                  0%nat [b] b eq_refl) as (dec & -> & Hdl & _ & _)
  end.
  cbn [Py.bind].
  destruct enc as [ | in_layer' enc]; [discriminate | ].
  simpl in Heh. injection Heh as ->. cbn [Py.bind].
  unfold TfModels.top. rewrite Hdl. cbn [Py.bind]. rewrite Hop. cbn [Py.bind].
  rewrite (make_deconv_layer_stage _ _ _ _ _ _ _ _ Hoc Hopad). cbn [Py.bind].
  reflexivity.
Qed.

Lemma conv_autoencoder_setup_layers_witness :
  ConvolutionalAutoencoderModel.setup_layers Props.some_conv_defaults
    {["is_training" := placeholder "bool" "is_training" None]} MoreProps.conv_params.2
  = Ok (GraphProps.conv_autoencoder_graph (placeholder "bool" "is_training" None)
          (PInt 40) [PInt 10]
          (ConvLayerConfig_init Props.some_conv_defaults
             [("dropout_rate", PFloat (1 # 10)); ("kernel", PInt 5);
              ("strides", PInt 1); ("pool_size", PInt 2)])
          (PInt 3)
          (ConvLayerConfig_init Props.some_conv_defaults
             [("dropout_rate", PNone); ("kernel", PInt 5);
              ("strides", PInt 1); ("pool_size", PInt 1)])
          [PInt 10]
          (ConvLayerConfig_init Props.some_conv_defaults
             [("dropout_rate", PNone); ("kernel", PInt 5);
              ("strides", PInt 1); ("pool_size", PInt 2)])
          (PInt 1)
          (ConvLayerConfig_init Props.some_conv_defaults
             [("dropout_rate", PNone); ("activation", PNone); ("act_reg", PNone);
              ("kernel", PInt 1); ("strides", PInt 1); ("pool_size", PInt 1)])
          (PInt 0)).
Proof.
  apply (conv_autoencoder_setup_layers Props.some_conv_defaults _ _ _ _
           (PList [PInt 10]) _ (PList [PInt 10]) _ _
           (Layer (ConvLayerObj (ConvLayerConfig_init Props.some_conv_defaults
              [("dropout_rate", PFloat (1 # 10)); ("kernel", PInt 5);
               ("strides", PInt 1); ("pool_size", PInt 2)])))
           (Layer (ConvLayerObj (ConvLayerConfig_init Props.some_conv_defaults
              [("dropout_rate", PNone); ("kernel", PInt 5);
               ("strides", PInt 1); ("pool_size", PInt 1)])))
           (Layer (ConvLayerObj (ConvLayerConfig_init Props.some_conv_defaults
              [("dropout_rate", PNone); ("kernel", PInt 5);
               ("strides", PInt 1); ("pool_size", PInt 2)])))
           (Layer (ConvLayerObj (ConvLayerConfig_init Props.some_conv_defaults
              [("dropout_rate", PNone); ("activation", PNone); ("act_reg", PNone);
               ("kernel", PInt 1); ("strides", PInt 1); ("pool_size", PInt 1)]))));
    try (intros _); by_vm.
Defined.

(** ** Failures of the layer builders *)




(** ** From keyword arguments to the dense autoencoder *)

Lemma init_inv (layer_defaults : LayerConfig) (conv_defaults : ConvLayerConfig)
    (cls : TfModels.params_class) (kwargs : list (string * attr))
    (fs fs' : Os.filesystem) (params : gmap string attr) :
  TfModels.init layer_defaults conv_defaults cls kwargs fs = (fs', Ok params) →
  ∃ self path tb_log_path,
    TfModels.init_attributes cls kwargs = Ok (self, path, tb_log_path) ∧
    TfModels.promote_layers layer_defaults conv_defaults
      (TfModels.LAYER_PARAM_TYPES cls) self = Ok params.
Proof.
  unfold TfModels.init.
  destruct (TfModels.init_attributes cls kwargs) as [[[self path] tb] | e];
    [ | by intros [=]].
  destruct (TfModels.make_dir path fs) as [fs1 | e]; [ | by intros [=]].
  destruct (TfModels.make_dir tb fs1) as [fs2 | e]; [ | by intros [=]].
  intros [= <- Hp]. by exists self, path, tb.
Qed.

(** X12.  Construction composes: on the parameter object that
    [DenseAutoencoderParams] builds from any keyword arguments, with
    plain sizes, node lists and learning rate, the class
    [DenseAutoencoderModel] constructs a network.  Its four layers are
    the dense autoencoder of the promoted layer configurations, its
    training step minimizes its loss with momentum 0.9 at the
    configured learning rate, its log directory is [tb_log] under the
    artifact path, and its saver writes to [saver-meta] under that
    path, under the name of the model, keeping four checkpoints. *)
Theorem dense_autoencoder_from_keywords (layer_defaults : LayerConfig)
    (conv_defaults : ConvLayerConfig) (kwargs : list (string * attr))
    (fs fs' : Os.filesystem) (params : gmap string attr)
    (in_size encode_value bottleneck_dim decode_value learning_rate : pyval)
    (encode_nodes decode_nodes : list pyval) :
  TfModels.init layer_defaults conv_defaults DenseAutoencoderModel.DenseAutoencoderParams
    kwargs fs = (fs', Ok params) →
  params !! "in_size" = Some (Plain in_size) →
  params !! "encode_nodes" = Some (Plain encode_value) →
  py_iter encode_value = Ok encode_nodes →
  params !! "bottleneck_dim" = Some (Plain bottleneck_dim) →
  params !! "decode_nodes" = Some (Plain decode_value) →
  py_iter decode_value = Ok decode_nodes →
  params !! "learning_rate" = Some (Plain learning_rate) →
  ∃ encode_params bottleneck_params decode_params output_params name path net,
    params !! "encode_params" = Some (Layer (LayerObj encode_params)) ∧
    params !! "bottleneck_params" = Some (Layer (LayerObj bottleneck_params)) ∧
    params !! "decode_params" = Some (Layer (LayerObj decode_params)) ∧
    params !! "output_params" = Some (Layer (LayerObj output_params)) ∧
    params !! "name" = Some (Plain (PStr name)) ∧
    params !! "path" = Some (Plain (PStr path)) ∧
    DenseAutoencoderModel.construct layer_defaults DenseAutoencoderModelCls params
    = Ok net ∧
    (TfModels.input net, TfModels.output net, TfModels.target net, TfModels.loss net)
    = Props.dense_autoencoder_graph (placeholder "bool" "is_training" None) in_size
        encode_nodes encode_params bottleneck_dim bottleneck_params decode_nodes
        decode_params output_params ∧
    TfModels.train_step net
    = {| Tf.learning_rate := learning_rate; momentum := 9 # 10;
         minimized := TfModels.loss net |} ∧
    TfModels.tb_log net = PStr (Os.path_join path "tb_log") ∧
    TfModels.saver net
    = {| saver_name := PStr name;
         saver_filename := PStr (Os.path_join path "saver-meta");
         pad_step_number := true; max_to_keep := 4 |}.
Proof.
  intros Hinit Hin Hen Heni Hbd Hdn Hdni Hlr.
  destruct (init_inv _ _ _ _ _ _ _ Hinit) as (self & path & tb & Hattr & Hprom).
  destruct (init_attributes_inv _ _ _ _ _ Hattr) as (name & Hname & _ & Htb & Hself).
  cbn zeta in Hname.
  assert (Hnd : NoDup (map fst (TfModels.LAYER_PARAM_TYPES
                                  DenseAutoencoderModel.DenseAutoencoderParams))).
  { simpl. repeat (apply NoDup_cons; split; [rewrite ?not_elem_of_cons;
      repeat split; try discriminate; apply not_elem_of_nil | ]). apply NoDup_nil_2. }
  destruct (promote_layers_inv _ _ _ Hnd _ _ Hprom) as [Hlayer Hother].
  assert (Hl : ∀ a, (a, LayerConfigCls)
                    ∈ TfModels.LAYER_PARAM_TYPES
                        DenseAutoencoderModel.DenseAutoencoderParams →
               ∃ c, params !! a = Some (Layer (LayerObj c))).
  { intros a Ha. destruct (Hlayer a _ Ha) as (d & _ & ->). by eexists. }
  destruct (Hl "encode_params") as [ep Hep]; [simpl; rewrite !elem_of_cons; auto | ].
  destruct (Hl "bottleneck_params") as [bp Hbp]; [simpl; rewrite !elem_of_cons; auto | ].
  destruct (Hl "decode_params") as [dp Hdp]; [simpl; rewrite !elem_of_cons; auto | ].
  destruct (Hl "output_params") as [op Hop];
    [simpl; rewrite !elem_of_cons; auto 10 | ].
  assert (Hplain : ∀ a, a ∉ map fst (TfModels.LAYER_PARAM_TYPES
                                       DenseAutoencoderModel.DenseAutoencoderParams) →
                   params !! a = self !! a) by exact Hother.
  assert (Hnl : ∀ a, a ≠ "encode_params" → a ≠ "decode_params" →
                a ≠ "bottleneck_params" → a ≠ "output_params" →
                params !! a = self !! a).
  { intros a N1 N2 N3 N4. apply Hplain. simpl. rewrite !not_elem_of_cons.
    repeat split; try done. apply not_elem_of_nil. }
  assert (Hpn : params !! "name" = Some (Plain (PStr name))).
  { rewrite Hnl by discriminate. rewrite Hself.
    rewrite !lookup_insert_ne by discriminate. exact Hname. }
  assert (Hpp : params !! "path" = Some (Plain (PStr path))).
  { rewrite Hnl by discriminate. rewrite Hself.
    by rewrite !lookup_insert_ne, lookup_insert_eq by discriminate. }
  assert (Hpm : params !! "meta_filename"
                = Some (Plain (PStr (Os.path_join path "saver-meta")))).
  { rewrite Hnl by discriminate. rewrite Hself.
    by rewrite lookup_insert_ne, lookup_insert_eq by discriminate. }
  assert (Hpt : params !! "tb_log_path" = Some (Plain (PStr (Os.path_join path "tb_log")))).
  { rewrite Hnl by discriminate. rewrite Hself, Htb. by rewrite lookup_insert_eq. }
  exists ep, bp, dp, op, name, path.
  pose proof (dense_autoencoder_setup_layers layer_defaults
                {["is_training" := placeholder "bool" "is_training" None]} params
                (placeholder "bool" "is_training" None)
                in_size encode_value bottleneck_dim decode_value encode_nodes decode_nodes
                (Layer (LayerObj ep)) (Layer (LayerObj bp)) (Layer (LayerObj dp))
                (Layer (LayerObj op)) ep bp dp op
                (lookup_singleton_eq _ _) Hin Hen Heni Hep eq_refl Hbd Hbp eq_refl Hdn Hdni
                Hdp eq_refl Hop eq_refl) as Hsetup.
  unfold DenseAutoencoderModel.construct, TfModels.BaseNetwork_init.
  rewrite Hsetup. cbn [Py.bind].
  destruct (Props.dense_autoencoder_graph _ _ _ _ _ _ _ _ _)
    as [[[input output] target] loss] eqn:Hgraph.
  unfold getattr. rewrite Hlr, Hpt, Hpn, Hpm. cbn [Py.bind as_data].
  eexists. repeat split; try done.
Qed.

Lemma dense_autoencoder_from_keywords_witness :
  ∃ encode_params bottleneck_params decode_params output_params name path net,
    Props.autoenc_params.2 !! "encode_params" = Some (Layer (LayerObj encode_params)) ∧
    Props.autoenc_params.2 !! "bottleneck_params"
    = Some (Layer (LayerObj bottleneck_params)) ∧
    Props.autoenc_params.2 !! "decode_params" = Some (Layer (LayerObj decode_params)) ∧
    Props.autoenc_params.2 !! "output_params" = Some (Layer (LayerObj output_params)) ∧
    Props.autoenc_params.2 !! "name" = Some (Plain (PStr name)) ∧
    Props.autoenc_params.2 !! "path" = Some (Plain (PStr path)) ∧
    DenseAutoencoderModel.construct Props.some_layer_defaults DenseAutoencoderModelCls
      Props.autoenc_params.2 = Ok net ∧
    (TfModels.input net, TfModels.output net, TfModels.target net, TfModels.loss net)
    = Props.dense_autoencoder_graph (placeholder "bool" "is_training" None) (PInt 10)
        [PInt 5; PInt 5] encode_params (PInt 3) bottleneck_params [PInt 5; PInt 5]
        decode_params output_params ∧
    TfModels.train_step net
    = {| Tf.learning_rate := PFloat (1 # 10000); momentum := 9 # 10;
         minimized := TfModels.loss net |} ∧
    TfModels.tb_log net = PStr (Os.path_join path "tb_log") ∧
    TfModels.saver net
    = {| saver_name := PStr name;
         saver_filename := PStr (Os.path_join path "saver-meta");
         pad_step_number := true; max_to_keep := 4 |}.
Proof.
  apply (dense_autoencoder_from_keywords Props.some_layer_defaults
           Props.some_conv_defaults [] Props.fresh_fs Props.autoenc_params.1
           Props.autoenc_params.2 (PInt 10) (PList [PInt 5; PInt 5]) (PInt 3)
           (PList [PInt 5; PInt 5]) (PFloat (1 # 10000)) [PInt 5; PInt 5]
           [PInt 5; PInt 5]); by_vm.
Defined.

(** ** [train]: runs without an epoch, and the totals of a run *)

Section TrainingTotals.
Import Run RunProps.
Context (balanced_batches : dataset → pyval → attr → list (ndarray * ndarray)).
Context (get_holdout_samples : dataset → ndarray * ndarray).
Context (tensor_value : list event → tensor → feed_dict → ndarray).
Context (self : ModelWrangler.t).

Lemma range_nonpositive (n : Z) : (n <= 0)%Z → range n = [].
Proof. intros Hn. unfold range. by replace (Z.to_nat n) with 0%nat by lia. Qed.

Lemma py_range_raises (v : attr) (e : exn) :
  ModelWrangler.py_range v = Raise e →
  e = TypeError ∧ (∀ n, v ≠ Plain (PInt n)) ∧ (∀ b, v ≠ Plain (PBool b)).
Proof.
  destruct v as [[ | | | | | | | ] | | ]; simpl; intros [= <-];
    repeat split; intros; discriminate.
Qed.

(** X13.  A run without an epoch.  When [num_epoch] is an integer that
    is not positive, [train] builds the dataset provider, opens and
    releases one session, and returns: nothing is trained and no
    checkpoint is written.  When [num_epoch] is not an integer (a
    float, a string, [None]), [range] raises [TypeError] inside the
    session: the session is released, the handler for the user
    interrupt does not apply, and the error leaves [train]. *)
Theorem train_without_epochs (input_x target_y : ndarray) (pos_classes : pyval)
    (w : world) :
  pending w = None →
  let dataset := {| Run.input_x := input_x; Run.target_y := target_y;
                    categorical := true; holdout_prop := 1 # 10 |} in
  let opening := [DatasetManager_new dataset; Session_enter; Session_exit] in
  let run := ModelWrangler.train balanced_batches get_holdout_samples tensor_value
               self input_x target_y pos_classes w in
  (∀ n, ModelParams.num_epoch (ModelWrangler.params self) = Plain (PInt n) →
        (n <= 0)%Z →
        run = (Ok tt, {| pending := None; trace := trace w ++ opening |})) ∧
  (∀ e, ModelWrangler.py_range (ModelParams.num_epoch (ModelWrangler.params self))
        = Raise e →
        e = TypeError ∧
        (∀ n, ModelParams.num_epoch (ModelWrangler.params self) ≠ Plain (PInt n)) ∧
        run = (Raise TypeError, {| pending := None; trace := trace w ++ opening |})).
Proof.
  intros Hw. cbn zeta. split.
  - intros n Hn Hle.
    destruct (train_cases balanced_batches get_holdout_samples tensor_value self
                input_x target_y pos_classes n w Hn) as (_ & Hrun & _).
    cbn zeta in Hrun. rewrite Hrun; [ | by unfold fits; rewrite Hw].
    unfold train_events. rewrite (range_nonpositive n Hle). simpl.
    f_equal. apply world_eq; unfold after; simpl; [by rewrite Hw | done].
  - intros e He. destruct (py_range_raises _ _ He) as (-> & Hint & _).
    split; [done | ]. split; [done | ].
    destruct w as [p tr]. simpl in Hw. subst p.
    unfold ModelWrangler.train, try_except_KeyboardInterrupt, with_session, bind, lift,
      emit. cbn [pending trace]. rewrite He. cbn [pending trace].
    f_equal. apply world_eq; simpl; [done | by rewrite <- !app_assoc].
Qed.





End TrainingTotals.

Lemma train_without_epochs_witness :
  (∀ n, ModelParams.num_epoch
          (ModelWrangler.params (MoreProps.with_num_epoch (PFloat 2)))
        = Plain (PInt n) →
        (n <= 0)%Z →
        ModelWrangler.train Examples.two_batches Examples.whole_holdout
          Examples.constant_engine (MoreProps.with_num_epoch (PFloat 2))
          Examples.some_rows Examples.some_rows (PList [PInt 1]) Examples.idle
        = (Ok tt,
           {| Run.pending := None;
              Run.trace :=
                Run.trace Examples.idle
                ++ [Run.DatasetManager_new
                      {| Run.input_x := Examples.some_rows;
                         Run.target_y := Examples.some_rows;
                         Run.categorical := true; Run.holdout_prop := 1 # 10 |};
                    Run.Session_enter; Run.Session_exit] |})) ∧
  (∀ e, ModelWrangler.py_range
          (ModelParams.num_epoch
             (ModelWrangler.params (MoreProps.with_num_epoch (PFloat 2))))
        = Raise e →
        e = TypeError ∧
        (∀ n, ModelParams.num_epoch
                (ModelWrangler.params (MoreProps.with_num_epoch (PFloat 2)))
              ≠ Plain (PInt n)) ∧
        ModelWrangler.train Examples.two_batches Examples.whole_holdout
          Examples.constant_engine (MoreProps.with_num_epoch (PFloat 2))
          Examples.some_rows Examples.some_rows (PList [PInt 1]) Examples.idle
        = (Raise TypeError,
           {| Run.pending := None;
              Run.trace :=
                Run.trace Examples.idle
                ++ [Run.DatasetManager_new
                      {| Run.input_x := Examples.some_rows;
                         Run.target_y := Examples.some_rows;
                         Run.categorical := true; Run.holdout_prop := 1 # 10 |};
                    Run.Session_enter; Run.Session_exit] |})).
Proof.
  apply (train_without_epochs Examples.two_batches Examples.whole_holdout
           Examples.constant_engine (MoreProps.with_num_epoch (PFloat 2))
           Examples.some_rows Examples.some_rows (PList [PInt 1]) Examples.idle).
  reflexivity.
Defined.


(** ** [predict] and [score] *)

Section Inference.
Import Run RunProps.
Context (tensor_value : list event → tensor → feed_dict → ndarray).
Context (self : ModelWrangler.t).

Lemma linear_quiet {A} (m : M A) (full : list event) :
  linear m full → Forall InferenceProps.quiet full →
  ∀ w, ∃ r w' tr,
    m w = (r, w') ∧ trace w' = trace w ++ tr ∧ Forall InferenceProps.quiet tr ∧
    (pending w = None → tr = full ∧ ∃ a, r = Ok a).
Proof.
  intros Hlin Hq w. specialize (Hlin w). unfold fits, after, interrupted in Hlin.
  destruct (pending w) as [k | ] eqn:Hp.
  - destruct (length full <=? k)%nat.
    + destruct Hlin as [a ->]. exists (Ok a). eexists _, full. by repeat split.
    + destruct Hlin as (closing & Hc & ->). eexists _, _, (take k full ++ closing).
      repeat split; try done. apply Forall_app. split; [by apply Forall_take | ].
      eapply Forall_impl; [exact Hc | ]. by intros e ->.
  - destruct Hlin as [a ->]. exists (Ok a). eexists _, full. repeat split; try done.
    by exists a.
Qed.

Lemma linear_predict (input_x : ndarray) :
  linear (ModelWrangler.predict tensor_value self input_x)
    [Session_enter;
     Session_run (FetchTensor (TfModels.output (ModelWrangler.tf_mod self)))
       [(TfModels.input (ModelWrangler.tf_mod self), Values input_x);
        (TfModels.is_training (ModelWrangler.tf_mod self), Flag false)];
     Session_exit].
Proof.
  unfold ModelWrangler.predict.
  apply (linear_with_session _ [_]), linear_session_run_tensor.
Qed.

Lemma linear_score_with (X y : ndarray) (score_func : option tensor) :
  linear (ModelWrangler.score tensor_value self X y score_func)
    [Session_enter;
     Session_run (FetchTensor (default (TfModels.loss (ModelWrangler.tf_mod self))
                                 score_func))
       (fed self X y false);
     Session_exit].
Proof.
  unfold ModelWrangler.score.
  destruct score_func; apply (linear_with_session _ [_]), linear_session_run_tensor.
Qed.

(** X15.  [predict] and [score] train nothing and save nothing,
    whenever they are called and even when they are interrupted: every
    action they add to a run is the opening or the release of their own
    session, or one fetch under a feed whose training flag is false.
    When no interrupt is pending, [predict] fetches the output layer
    under the input alone, and [score] evaluates the loss, or the
    scoring tensor it is given in its place, under the input and the
    target; each returns the value the engine computes. *)
Theorem inference_is_quiet (input_x target_y : ndarray) (score_func : option tensor)
    (w : world) :
  let net := ModelWrangler.tf_mod self in
  let scored := default (TfModels.loss net) score_func in
  let predict_feed := [(TfModels.input net, Values input_x);
                       (TfModels.is_training net, Flag false)] in
  let score_feed := fed self input_x target_y false in
  (∃ r w' tr,
     ModelWrangler.predict tensor_value self input_x w = (r, w') ∧
     trace w' = trace w ++ tr ∧ Forall InferenceProps.quiet tr ∧
     (pending w = None →
      tr = [Session_enter; Session_run (FetchTensor (TfModels.output net)) predict_feed;
            Session_exit] ∧
      r = Ok (tensor_value (trace w ++ [Session_enter]) (TfModels.output net)
                predict_feed))) ∧
  (∃ r w' tr,
     ModelWrangler.score tensor_value self input_x target_y score_func w = (r, w') ∧
     trace w' = trace w ++ tr ∧ Forall InferenceProps.quiet tr ∧
     (pending w = None →
      tr = [Session_enter; Session_run (FetchTensor scored) score_feed; Session_exit] ∧
      r = Ok (tensor_value (trace w ++ [Session_enter]) scored score_feed))).
Proof.
  cbn zeta. split.
  - destruct (linear_quiet _ _ (linear_predict input_x)
                ltac:(repeat constructor) w) as (r & w' & tr & Hrun & Htr & Hq & Hnone).
    exists r, w', tr. split; [done | split; [done | split; [done | ]]].
    intros Hw. destruct (Hnone Hw) as [-> _]. split; [done | ].
    destruct w as [p t]. simpl in Hw. subst p.
    revert Hrun. unfold ModelWrangler.predict, with_session,
                   ModelWrangler.session_run_tensor, emit. simpl.
    by intros [= <- _].
  - destruct (linear_quiet _ _ (linear_score_with input_x target_y score_func)
                ltac:(repeat constructor) w) as (r & w' & tr & Hrun & Htr & Hq & Hnone).
    exists r, w', tr. split; [done | split; [done | split; [done | ]]].
    intros Hw. destruct (Hnone Hw) as [-> _]. split; [done | ].
    destruct w as [p t]. simpl in Hw. subst p.
    revert Hrun. unfold ModelWrangler.score, with_session,
                   ModelWrangler.session_run_tensor, emit. simpl.
    by intros [= <- _].
Qed.

End Inference.
